(** * The guarded SQL tool and its database layer

    A shallow embedding of [src/sql_tool.py] ([execute_sql_function]) and of
    the [Database] class of [src/database.py], with the properties the
    specification states about them.

    Layout: the Python string primitives the code calls; exceptions and the
    state-and-exception monad; the PyMySQL driver as an interface; the
    [Database] methods; [execute_sql_function]; the vocabulary of the
    properties; a reference driver to run the model on; the lemmas and the
    theorems.

    What the model fixes:
    - [print] appends to the trace and does not fail;
    - the exceptions are those deriving from [Exception]; interrupts
      ([KeyboardInterrupt], [SystemExit]) are not modelled;
    - the driver is any implementation of the interface [PyMySQL]: every
      call of it may return or raise, whatever the class of the exception;
      [int] and [repr] on strings are taken from the interface [Builtins];
    - the trace also records, for the statements of the properties, when a
      [Database] is constructed and when [execute_query] is entered. *)

From stdpp Require Import gmap strings list.
From Stdlib Require Import Ascii String ZArith Lia.

Open Scope string_scope.

(** ** Python [str] primitives

    Python strings are modelled as [String.string].  The model is exact on
    ASCII text; a character above code 127 is carried through unchanged and is
    never white space (Python's Unicode case mapping and white-space classes
    beyond ASCII are not part of the model). *)

Module PyStr.

(** [str.isspace] on one ASCII character: TAB, LF, VT, FF, CR, the four
    separators FS, GS, RS, US, and the space. *)
Definition isspace (c : ascii) : bool :=
  let n := nat_of_ascii c in
  (((9 <=? n) && (n <=? 13)) || ((28 <=? n) && (n <=? 31)) || (n =? 32))%nat.

Definition is_ascii_lower (c : ascii) : bool :=
  let n := nat_of_ascii c in ((97 <=? n) && (n <=? 122))%nat.

Definition upper_char (c : ascii) : ascii :=
  if is_ascii_lower c then ascii_of_nat (nat_of_ascii c - 32) else c.

(** [s.upper()] *)
Fixpoint upper (s : string) : string :=
  match s with
  | EmptyString => EmptyString
  | String c r => String (upper_char c) (upper r)
  end.

(** [s.lstrip()] *)
Fixpoint lstrip (s : string) : string :=
  match s with
  | EmptyString => EmptyString
  | String c r => if isspace c then lstrip r else s
  end.

(** [s.rstrip()] *)
Fixpoint rstrip (s : string) : string :=
  match s with
  | EmptyString => EmptyString
  | String c r =>
      match rstrip r with
      | EmptyString => if isspace c then EmptyString else String c EmptyString
      | r' => String c r'
      end
  end.

(** [s.strip()]: white space removed at both ends. *)
Definition strip (s : string) : string := rstrip (lstrip s).

(** [s.startswith(p)] *)
Fixpoint startswith (s p : string) : bool :=
  match p, s with
  | EmptyString, _ => true
  | String _ _, EmptyString => false
  | String b p', String a s' => if Ascii.eqb a b then startswith s' p' else false
  end.

(** [s.split(sep)] for a one-character separator: the fields between the
    occurrences of [sep], empty fields included, never the empty list. *)
Fixpoint split (sep : ascii) (s : string) : list string :=
  match s with
  | EmptyString => [EmptyString]
  | String c r =>
      if Ascii.eqb c sep then EmptyString :: split sep r
      else match split sep r with
           | f :: fs => String c f :: fs
           | [] => [String c EmptyString]
           end
  end.

Definition is_ascii_upper (c : ascii) : bool :=
  let n := nat_of_ascii c in ((65 <=? n) && (n <=? 90))%nat.

Definition lower_char (c : ascii) : ascii :=
  if is_ascii_upper c then ascii_of_nat (nat_of_ascii c + 32) else c.

(** [s.lower()] *)
Fixpoint lower (s : string) : string :=
  match s with
  | EmptyString => EmptyString
  | String c r => String (lower_char c) (lower r)
  end.

(** Truth value of a string: non-empty. *)
Definition truthy (s : string) : bool :=
  match s with EmptyString => false | String _ _ => true end.


(** No character of [s] is white space. *)
Fixpoint blank_free (s : string) : Prop :=
  match s with
  | EmptyString => True
  | String c r => isspace c = false ∧ blank_free r
  end.

(** Every character of [s] is white space. *)
Fixpoint blank (s : string) : Prop :=
  match s with
  | EmptyString => True
  | String c r => isspace c = true ∧ blank r
  end.

End PyStr.

(** ** Exceptions

    The classes the two modules distinguish.  [PyMySQLError] stands for
    [pymysql.Error] and all its subclasses (what [except Error] catches);
    the others are built-in classes, none of them a [pymysql.Error].  Every
    class here derives from [Exception], so [except Exception] catches each.
    [exc_str] is [str(e)]. *)

Inductive exn_class : Type :=
| PyMySQLError
| ConnectionError
| RuntimeError
| ValueError
| AttributeError
| OtherException.

Record exception : Type := Exc { exc_class : exn_class; exc_str : string }.

(** [isinstance(e, pymysql.Error)] *)
Definition is_Error (e : exception) : bool :=
  match exc_class e with PyMySQLError => true | _ => false end.

(** [isinstance(e, Exception)] *)
Definition is_Exception (e : exception) : bool := true.

Definition result (A : Type) : Type := (exception + A)%type.

Definition returned {A} (r : result A) : option exception :=
  match r with inl e => Some e | inr _ => None end.

(** ** State and exceptions

    A computation takes the state and gives a value or a raised exception,
    with the state as it is at that point: what was mutated before a [raise]
    stays mutated. *)

Definition M (S A : Type) : Type := S → result A * S.

#[global] Instance M_ret {S} : MRet (M S) := λ A x s, (inr x, s).

#[global] Instance M_bind {S} : MBind (M S) := λ A B f m s,
  match m s with
  | (inr a, s') => f a s'
  | (inl e, s') => (inl e, s')
  end.

Definition raise {S A} (e : exception) : M S A := λ s, (inl e, s).

(** [try: body  except C as e: handler e], where [catches] decides
    [isinstance(e, C)]. *)
Definition try_except {S A} (body : M S A) (catches : exception → bool)
    (handler : exception → M S A) : M S A := λ s,
  match body s with
  | (inr a, s') => (inr a, s')
  | (inl e, s') => if catches e then handler e s' else (inl e, s')
  end.

Definition gets {S A} (f : S → A) : M S A := λ s, (inr (f s), s).
Definition modify {S} (f : S → S) : M S unit := λ s, (inr tt, f s).

(** [for x in xs: body x] *)
Fixpoint for_each {S A} (xs : list A) (body : A → M S unit) : M S unit :=
  match xs with
  | [] => mret tt
  | x :: xs' => body x;; for_each xs' body
  end.

(** ** Values

    A row as [DictCursor] gives it: column names with the driver's scalars. *)

Inductive sql_value : Type :=
| SqlNull
| SqlInt (z : Z)
| SqlDecimal (unscaled : Z) (scale : nat)
| SqlStr (s : string).

Definition Row : Type := list (string * sql_value).

(** The values stored in the dictionary [execute_sql_function] returns. *)
Inductive py_value : Type :=
| PyBool (b : bool)
| PyInt (z : Z)
| PyStr (s : string)
| PyRows (rows : list Row).

(** ** The driver

    [pymysql] is outside the repository: it is an interface over a state [D]
    (driver, network and server together).  Each call gives back the new
    state and either a value or the exception it raised. *)

Definition connection : Type := nat.
Definition cursor : Type := nat.
Inductive cursor_class : Type := DefaultCursor | DictCursor.

Record ConnParams : Type := {
  host : string;
  port : Z;
  database : string;
  user : string;
  password : string;
  autocommit : bool
}.

Class PyMySQL (D : Type) : Type := {
  pymysql_connect : ConnParams → D → result connection * D;
  Connection_cursor : connection → cursor_class → D → result cursor * D;
  Connection_commit : connection → D → result unit * D;
  Connection_rollback : connection → D → result unit * D;
  Connection_close : connection → D → result unit * D;
  Cursor_execute : cursor → string → option Row → D → result unit * D;
  Cursor_fetchall : cursor → D → result (list Row) * D;
  Cursor_rowcount : cursor → D → Z;
  Cursor_close : cursor → D → result unit * D
}.

(** Python's [int(s)] on a string ([None] when it raises [ValueError]) and
    [repr(s)], which the message of that [ValueError] quotes. *)
Class Builtins : Type := {
  builtin_int : string → option Z;
  builtin_repr : string → string
}.

(** What the program does to the outside, in order: the lines it prints,
    the [Database] objects it constructs, the queries handed to
    [execute_query], and every driver call with the exception it raised
    ([None] when it returned). *)

Inductive output : Type :=
| OutExecuting (sql_query : string)
| OutExecuted (row_count : nat)
| OutResults (results : list Row).

Inductive driver_call : Type :=
| CallConnect (p : ConnParams)
| CallCursor (c : connection) (k : cursor_class)
| CallCommit (c : connection)
| CallRollback (c : connection)
| CallClose (c : connection)
| CallExecute (cur : cursor) (query : string) (args : option Row)
| CallFetchall (cur : cursor)
| CallCursorClose (cur : cursor).

Inductive event : Type :=
| EvPrint (o : output)
| EvDatabase
| EvExecuteQuery (query : string) (params : option Row)
| EvDriver (c : driver_call) (raised : option exception).

Record World (D : Type) : Type := mkWorld {
  environ : gmap string string;
  trace : list event;
  driver : D
}.
Arguments mkWorld {D}.
Arguments environ {D}.
Arguments trace {D}.
Arguments driver {D}.

Record Database : Type := mkDatabase {
  connection_params : ConnParams;
  conn : option connection
}.

(** ** [src/database.py]: class [Database]

    A method runs on the pair of its object and the world, so that what it
    assigns to [self.conn] survives an exception it raises. *)

Section Program.
Context {D : Type} `{!PyMySQL D, !Builtins}.

Definition record_event (ev : event) (w : World D) : World D :=
  mkWorld (environ w) (trace w ++ [ev]) (driver w).

Definition log (ev : event) : M (World D) unit := modify (record_event ev).

(** One driver call: run it on the driver state and record it. *)
Definition call {A} (c : driver_call) (op : D → result A * D) : M (World D) A :=
  λ w, let '(r, d) := op (driver w) in
       (r, mkWorld (environ w) (trace w ++ [EvDriver c (returned r)]) d).

(** [os.getenv(name, default)] *)
Definition getenv (name fallback : string) : M (World D) string :=
  gets (λ w, default fallback (environ w !! name)).

(** [int(s)] *)
Definition int (s : string) : M (World D) Z :=
  match builtin_int s with
  | Some z => mret z
  | None =>
      raise (Exc ValueError
               ("invalid literal for int() with base 10: " ++ builtin_repr s))
  end.

Definition _get_config : M (World D) ConnParams :=
  host ← getenv "MYSQL_HOST" "localhost";
  port_text ← getenv "MYSQL_PORT" "3306";
  port ← int port_text;
  database ← getenv "MYSQL_DATABASE" "budget_db";
  username ← getenv "MYSQL_USERNAME" "root";
  password ← getenv "MYSQL_PASSWORD" "";
  ssl_text ← getenv "MYSQL_SSL_DISABLED" "False";
  let ssl_disabled := String.eqb (PyStr.lower ssl_text) "true" in
  mret {| host := host; port := port; database := database;
          user := username; password := password; autocommit := false |}.

(** [Database()]: [__init__], recorded in the trace when it starts. *)
Definition Database_init : M (World D) Database :=
  log EvDatabase;;
  params ← _get_config;
  mret (mkDatabase params None).

Definition Self : Type := (Database * World D)%type.

Definition self_conn : M Self (option connection) := gets (λ s, conn (fst s)).

Definition set_conn (c : option connection) : M Self unit :=
  modify (λ s, (mkDatabase (connection_params (fst s)) c, snd s)).

(** A world computation run inside a method. *)
Definition world {A} (m : M (World D) A) : M Self A :=
  λ s, let '(r, w) := m (snd s) in (r, (fst s, w)).

(** [db.method(...)] called from a function that holds [db] in a local
    variable: the value and the object as the method leaves it. *)
Definition invoke {A} (db : Database) (m : M Self A) : M (World D) (A * Database) :=
  λ w, match m (db, w) with
       | (inr a, (db', w')) => (inr (a, db'), w')
       | (inl e, (_, w')) => (inl e, w')
       end.

(** [self.conn] where its attribute [attr] is about to be taken:
    [AttributeError] on [None]. *)
Definition the_conn (attr : string) : M Self connection :=
  c ← self_conn;
  match c with
  | Some h => mret h
  | None =>
      raise (Exc AttributeError
               ("'NoneType' object has no attribute '" ++ attr ++ "'"))
  end.

Definition connect : M Self bool :=
  try_except
    (params ← gets (λ s, connection_params (fst s));
     h ← world (call (CallConnect params) (pymysql_connect params));
     set_conn (Some h);;
     mret true)
    is_Error
    (λ e, raise (Exc ConnectionError
                   ("Failed to connect to database: " ++ exc_str e))).

Definition disconnect : M Self unit :=
  c ← self_conn;
  match c with
  | Some h =>
      world (call (CallClose h) (Connection_close h));;
      set_conn None
  | None => mret tt
  end.

(** [if not self.conn: self.connect()] *)
Definition connect_if_needed : M Self unit :=
  c ← self_conn;
  match c with
  | Some _ => mret tt
  | None => connect;; mret tt
  end.

(** Truth value of [params]: [None] and the empty dictionary are false. *)
Definition truthy_params (params : option Row) : bool :=
  match params with
  | Some (_ :: _) => true
  | _ => false
  end.

(** [cursor.execute(query, params)] if [params] else [cursor.execute(query)] *)
Definition execute_with (cur : cursor) (query : string) (params : option Row)
    : M Self unit :=
  if truthy_params params
  then world (call (CallExecute cur query params) (Cursor_execute cur query params))
  else world (call (CallExecute cur query None) (Cursor_execute cur query None)).

(** The first line records the call in the trace; the source starts at the
    second. *)
Definition execute_query (query : string) (params : option Row)
    : M Self (list Row) :=
  world (log (EvExecuteQuery query params));;
  connect_if_needed;;
  try_except
    (h ← the_conn "cursor";
     cur ← world (call (CallCursor h DictCursor) (Connection_cursor h DictCursor));
     execute_with cur query params;;
     results ← world (call (CallFetchall cur) (Cursor_fetchall cur));
     world (call (CallCursorClose cur) (Cursor_close cur));;
     mret results)
    is_Error
    (λ e, raise (Exc RuntimeError ("Query execution failed: " ++ exc_str e))).

(** [if self.conn: self.conn.rollback()] *)
Definition rollback_if_connected : M Self unit :=
  c ← self_conn;
  match c with
  | Some h => world (call (CallRollback h) (Connection_rollback h))
  | None => mret tt
  end.

Definition execute_non_query (query : string) (params : option Row)
    : M Self Z :=
  connect_if_needed;;
  try_except
    (h ← the_conn "cursor";
     cur ← world (call (CallCursor h DefaultCursor) (Connection_cursor h DefaultCursor));
     execute_with cur query params;;
     rows_affected ← world (gets (λ w, Cursor_rowcount cur (driver w)));
     h ← the_conn "commit";
     world (call (CallCommit h) (Connection_commit h));;
     world (call (CallCursorClose cur) (Cursor_close cur));;
     mret rows_affected)
    is_Error
    (λ e, rollback_if_connected;;
          raise (Exc RuntimeError ("Query execution failed: " ++ exc_str e))).

(** [[s.strip() for s in script.split(";") if s.strip()]] *)
Definition statements_of (script : string) : list string :=
  List.map PyStr.strip
    (List.filter (λ s, PyStr.truthy (PyStr.strip s)) (PyStr.split ";" script)).

Definition execute_script (script : string) : M Self unit :=
  connect_if_needed;;
  try_except
    (h ← the_conn "cursor";
     cur ← world (call (CallCursor h DefaultCursor) (Connection_cursor h DefaultCursor));
     let statements := statements_of script in
     for_each statements
       (λ statement,
          if PyStr.truthy statement
          then world (call (CallExecute cur statement None)
                           (Cursor_execute cur statement None))
          else mret tt);;
     h ← the_conn "commit";
     world (call (CallCommit h) (Connection_commit h));;
     world (call (CallCursorClose cur) (Cursor_close cur)))
    is_Error
    (λ e, rollback_if_connected;;
          raise (Exc RuntimeError ("Script execution failed: " ++ exc_str e))).

(** ** [src/sql_tool.py] *)

Definition print (o : output) : M (World D) unit := log (EvPrint o).

(** The security check: [sql_query.strip().upper().startswith("SELECT")]. *)
Definition is_select (sql_query : string) : bool :=
  let sql_upper := PyStr.upper (PyStr.strip sql_query) in
  PyStr.startswith sql_upper "SELECT".

(** The three dictionaries the function returns: at the security check
    (lines 22-25), after the query (lines 35-40), in the handler (line 42). *)
Definition rejected (sql_query : string) : gmap string py_value :=
  {[ "error" := PyStr "Only SELECT queries are allowed. Security check failed.";
     "sql_query" := PyStr sql_query ]}.

Definition succeeded (results : list Row) (sql_query : string)
    : gmap string py_value :=
  {[ "success" := PyBool true;
     "results" := PyRows results;
     "row_count" := PyInt (Z.of_nat (List.length results));
     "sql_query" := PyStr sql_query ]}.

Definition failed (e : exception) (sql_query : string) : gmap string py_value :=
  {[ "success" := PyBool false;
     "error" := PyStr (exc_str e);
     "sql_query" := PyStr sql_query ]}.

Definition execute_sql_function (sql_query : string)
    : M (World D) (gmap string py_value) :=
  try_except
    (print (OutExecuting sql_query);;
     if negb (is_select sql_query)
     then mret (rejected sql_query)
     else
       db ← Database_init;
       '(results, db) ← invoke db (execute_query sql_query None);
       print (OutExecuted (List.length results));;
       print (OutResults results);;
       mret (succeeded results sql_query))
    is_Exception
    (λ e, mret (failed e sql_query)).

End Program.

(** ** Vocabulary of the properties *)

Section Vocabulary.
Context {D : Type} `{!PyMySQL D, !Builtins}.

(** The world after the first line of [execute_sql_function] was printed. *)
Definition announced (sql_query : string) (w : World D) : World D :=
  record_event (EvPrint (OutExecuting sql_query)) w.

(** The world after the two lines that follow a successful query. *)
Definition reported (results : list Row) (w : World D) : World D :=
  record_event (EvPrint (OutResults results))
    (record_event (EvPrint (OutExecuted (List.length results))) w).

(** [db = Database()] followed by [db.execute_query(sql_query)]: the
    database layer as [execute_sql_function] uses it. *)
Definition forward (sql_query : string) : M (World D) (list Row * Database) :=
  db ← Database_init; invoke db (execute_query sql_query None).

(** The exception [execute_query] lets out when the driver call [c] raised
    [e]: a [pymysql.Error] is wrapped, anything else passes through. *)
Definition surfaced (c : driver_call) (e : exception) : exception :=
  if is_Error e then
    match c with
    | CallConnect _ =>
        Exc ConnectionError ("Failed to connect to database: " ++ exc_str e)
    | _ => Exc RuntimeError ("Query execution failed: " ++ exc_str e)
    end
  else e.

(** The arguments [cursor.execute] receives for [params]. *)
Definition execute_args (params : option Row) : option Row :=
  if truthy_params params then params else None.

(** A driver call that returned, as the trace records it. *)
Definition ok (c : driver_call) : event := EvDriver c None.

(** The driver's answer to the statements [stmts] sent one after the other
    on the cursor [cur], up to the first that raises. *)
Fixpoint execute_all (cur : cursor) (stmts : list string) (d : D) : result unit * D :=
  match stmts with
  | [] => (inr tt, d)
  | q :: rest =>
      match Cursor_execute cur q None d with
      | (inr _, d') => execute_all cur rest d'
      | (inl e, d') => (inl e, d')
      end
  end.

(** What the trace records of it. *)
Fixpoint execute_events (cur : cursor) (stmts : list string) (d : D) : list event :=
  match stmts with
  | [] => []
  | q :: rest =>
      match Cursor_execute cur q None d with
      | (inr _, d') => ok (CallExecute cur q None) :: execute_events cur rest d'
      | (inl e, _) => [EvDriver (CallExecute cur q None) (Some e)]
      end
  end.

(** The world [w] after the events [evs], with the driver left in [d]. *)
Definition after (w : World D) (evs : list event) (d : D) : World D :=
  mkWorld (environ w) (trace w ++ evs) d.

(** A transactional server with autocommit off, seen through the
    committed data [committed_data]: only a [commit] that returns changes
    them. *)
Class Transactional {Store : Type} (committed_data : D → Store) : Prop := {
  connect_keeps p d :
    committed_data (pymysql_connect p d).2 = committed_data d;
  cursor_keeps h k d :
    committed_data (Connection_cursor h k d).2 = committed_data d;
  execute_keeps cur q a d :
    committed_data (Cursor_execute cur q a d).2 = committed_data d;
  rollback_keeps h d :
    committed_data (Connection_rollback h d).2 = committed_data d;
  commit_raises_keeps h d e d' :
    Connection_commit h d = (inl e, d') → committed_data d' = committed_data d
}.

End Vocabulary.

(** ** A reference driver

    A small server to run the model on: it answers the [SELECT] statements
    of a table of known queries, queues [INSERT], [UPDATE] and [DELETE]
    statements in the open transaction, and rejects everything else.
    [commit] appends the open transaction to the committed statements,
    [rollback] drops it. *)

Module Ref.

Record Server : Type := mkServer {
  reachable : bool;
  known : list (string * list Row);
  committed : list string;
  pending : list string;
  fetched : list Row;
  rowcount : Z
}.

Definition error (msg : string) : exception := Exc PyMySQLError msg.

Fixpoint lookup_query (q : string) (t : list (string * list Row))
    : option (list Row) :=
  match t with
  | [] => None
  | (q', rows) :: t' => if String.eqb q q' then Some rows else lookup_query q t'
  end.

Definition mutating (q : string) : bool :=
  let u := PyStr.upper (PyStr.strip q) in
  PyStr.startswith u "INSERT" || PyStr.startswith u "UPDATE"
  || PyStr.startswith u "DELETE".

Definition execute (q : string) (s : Server) : result unit * Server :=
  if PyStr.startswith (PyStr.upper (PyStr.strip q)) "SELECT" then
    match lookup_query q (known s) with
    | Some rows =>
        (inr tt, mkServer (reachable s) (known s) (committed s) (pending s)
                   rows (Z.of_nat (List.length rows)))
    | None => (inl (error "(1146, Table does not exist)"), s)
    end
  else if mutating q then
    (inr tt, mkServer (reachable s) (known s) (committed s) (pending s ++ [q])
               [] 1)
  else (inl (error "(1064, You have an error in your SQL syntax)"), s).

Definition digit (c : ascii) : option Z :=
  let n := nat_of_ascii c in
  if ((48 <=? n) && (n <=? 57))%nat then Some (Z.of_nat (n - 48)) else None.

Fixpoint digits (acc : Z) (s : string) : option Z :=
  match s with
  | EmptyString => Some acc
  | String c r =>
      match digit c with
      | Some d => digits (10 * acc + d) r
      | None => None
      end
  end.

(** Plain decimal numerals only. *)
Definition parse_int (s : string) : option Z :=
  match PyStr.strip s with
  | EmptyString => None
  | t => digits 0 t
  end.

#[global] Instance pymysql : PyMySQL Server := {|
  pymysql_connect := λ _ s,
    if reachable s then (inr 0, s)
    else (inl (error "(2003, Cannot connect to MySQL server)"), s);
  Connection_cursor := λ _ _ s, (inr 0, s);
  Connection_commit := λ _ s,
    (inr tt, mkServer (reachable s) (known s) (committed s ++ pending s) []
               (fetched s) (rowcount s));
  Connection_rollback := λ _ s,
    (inr tt, mkServer (reachable s) (known s) (committed s) []
               (fetched s) (rowcount s));
  Connection_close := λ _ s, (inr tt, s);
  Cursor_execute := λ _ q _ s, execute q s;
  Cursor_fetchall := λ _ s, (inr (fetched s), s);
  Cursor_rowcount := λ _ s, rowcount s;
  Cursor_close := λ _ s, (inr tt, s)
|}.

#[global] Instance builtins : Builtins := {|
  builtin_int := parse_int;
  builtin_repr := λ s, "'" ++ s ++ "'"
|}.

Definition departments : list Row :=
  [ [("id", SqlInt 1); ("name", SqlStr "Finance"); ("code", SqlStr "FIN")] ].

(** A reachable server that knows two queries, one of them with no rows. *)
Definition server : Server :=
  mkServer true
    [ ("select * from departments limit 1", departments);
      ("SELECT * FROM departments WHERE id = 0", []) ]
    [] [] [] 0.

Definition unreachable : Server :=
  mkServer false [] [] [] [] 0.

Definition initial (s : Server) : World Server := mkWorld ∅ [] s.

Definition params : ConnParams :=
  {| host := "localhost"; port := 3306; database := "budget_db";
     user := "root"; password := ""; autocommit := false |}.

(** An instance that is not connected yet, and a connected one. *)
Definition fresh : Database := mkDatabase params None.
Definition connected : Database := mkDatabase params (Some 0).

End Ref.

(** ** [src/database.py]: the context manager

    [with Database() as db: body] runs [__enter__], the body, and
    [__exit__] whether the body returned or raised.  [__exit__] returns
    [None], so an exception of the body is raised again after it; an
    exception of [__exit__] itself replaces it. *)

Section ContextManager.
Context {D : Type} `{!PyMySQL D, !Builtins}.

(** Returns [self]: the object the state holds. *)
Definition __enter__ : M (@Self D) unit := connect;; mret tt.

(** The three arguments are the exception of the body, if any; they are not
    looked at. *)
Definition __exit__ (exc : option exception) : M (@Self D) unit := disconnect.

(** The body, then [__exit__] with what the body raised. *)
Definition then_exit {A} (body : M (@Self D) A) : M (@Self D) A :=
  λ s, match body s with
       | (inr a, s') => (__exit__ None;; mret a) s'
       | (inl e, s') => (__exit__ (Some e);; raise e) s'
       end.

(** [with self: body] *)
Definition with_self {A} (body : M (@Self D) A) : M (@Self D) A :=
  __enter__;; then_exit body.

End ContextManager.

(** ** More vocabulary *)

Section Footprints.
Context {D : Type} `{!PyMySQL D, !Builtins}.

(** The trace [t'] is [t] followed by events that all satisfy [P]. *)
Definition extends (P : event → Prop) (t t' : list event) : Prop :=
  ∃ new, t' = (t ++ new)%list ∧ Forall P new.

(** What [execute_query] may do for the query [q] with the driver
    arguments [args]: enter with [q], and ask the driver to connect, to
    open a [DictCursor], to execute [q] itself with [args], to fetch and to
    close the cursor.  [execute_sql_function] adds its printed lines and
    the construction of the [Database]. *)
Definition query_event (q : string) (args : option Row) (ev : event) : Prop :=
  match ev with
  | EvPrint _ | EvDatabase => True
  | EvExecuteQuery q' _ => q' = q
  | EvDriver (CallConnect _) _ => True
  | EvDriver (CallCursor _ DictCursor) _ => True
  | EvDriver (CallExecute _ q' a) _ => q' = q ∧ a = args
  | EvDriver (CallFetchall _) _ => True
  | EvDriver (CallCursorClose _) _ => True
  | EvDriver _ _ => False
  end.

(** The handler of the two mutating methods, entered with the exception [e]
    in the world [w]: a [pymysql.Error] is answered by a rollback, then by
    [RuntimeError] with the prefix [what], or by what the rollback raised;
    anything else passes through. *)
Definition handled {A} (what : string) (db : Database) (h : connection)
    (e : exception) (w : World D) : result A * (Database * World D) :=
  if is_Error e then
    let '(r, d) := Connection_rollback h (driver w) in
    let w' := after w [EvDriver (CallRollback h) (returned r)] d in
    match r with
    | inr _ => (inl (Exc RuntimeError (what ++ exc_str e)), (db, w'))
    | inl e' => (inl e', (db, w'))
    end
  else (inl e, (db, w)).

(** One driver call made in the world [w]: its answer and the world after. *)
Definition answered {A} (c : driver_call) (op : D → result A * D) (w : World D)
    : result A * World D :=
  ((op (driver w)).1,
   after w [EvDriver c (returned (op (driver w)).1)] (op (driver w)).2).

(** The end of a transaction on the connection [h] and the cursor [cur]:
    commit, close the cursor, return [a]. *)
Definition committed_and_closed {A} (what : string) (db : Database)
    (h : connection) (cur : cursor) (a : A) (w : World D)
    : result A * (Database * World D) :=
  let '(r3, w3) := answered (CallCommit h) (Connection_commit h) w in
  match r3 with
  | inl e => handled what db h e w3
  | inr _ =>
      let '(r4, w4) := answered (CallCursorClose cur) (Cursor_close cur) w3 in
      match r4 with
      | inl e => handled what db h e w4
      | inr _ => (inr a, (db, w4))
      end
  end.

(** [execute_query] once the instance [db] is connected on [h], call by
    call: cursor, execute, fetch, close; an exception ends it as
    [surfaced] says. *)
Definition query_run (q : string) (p : option Row) (db : Database)
    (h : connection) (w : World D) : result (list Row) * (Database * World D) :=
  let c1 := CallCursor h DictCursor in
  let '(r1, w1) := answered c1 (Connection_cursor h DictCursor) w in
  match r1 with
  | inl e => (inl (surfaced c1 e), (db, w1))
  | inr cur =>
      let c2 := CallExecute cur q (execute_args p) in
      let '(r2, w2) := answered c2 (Cursor_execute cur q (execute_args p)) w1 in
      match r2 with
      | inl e => (inl (surfaced c2 e), (db, w2))
      | inr _ =>
          let c3 := CallFetchall cur in
          let '(r3, w3) := answered c3 (Cursor_fetchall cur) w2 in
          match r3 with
          | inl e => (inl (surfaced c3 e), (db, w3))
          | inr rows =>
              let c4 := CallCursorClose cur in
              let '(r4, w4) := answered c4 (Cursor_close cur) w3 in
              match r4 with
              | inl e => (inl (surfaced c4 e), (db, w4))
              | inr _ => (inr rows, (db, w4))
              end
          end
      end
  end.

(** Events that neither open nor close a connection. *)
Definition keeps_connection (ev : event) : bool :=
  match ev with
  | EvDriver (CallConnect _) _ | EvDriver (CallClose _) _ => false
  | _ => true
  end.

(** [c in s] for a character. *)
Fixpoint contains (c : ascii) (s : string) : bool :=
  match s with
  | EmptyString => false
  | String a r => Ascii.eqb a c || contains c r
  end.

(** The last character of [s], if any. *)
Fixpoint last_char (s : string) : option ascii :=
  match s with
  | EmptyString => None
  | String a EmptyString => Some a
  | String _ r => last_char r
  end.

Definition first_char (s : string) : option ascii :=
  match s with
  | EmptyString => None
  | String a _ => Some a
  end.


(** The parameters [Database()] reads from the environment of [w], with
    [z] for the port. *)
Definition config_of (w : World D) (z : Z) : ConnParams :=
  {| host := default "localhost" (environ w !! "MYSQL_HOST");
     port := z;
     database := default "budget_db" (environ w !! "MYSQL_DATABASE");
     user := default "root" (environ w !! "MYSQL_USERNAME");
     password := default "" (environ w !! "MYSQL_PASSWORD");
     autocommit := false |}.

(** The text [Database()] hands to [int] for the port. *)
Definition port_text (w : World D) : string :=
  default "3306" (environ w !! "MYSQL_PORT").

(** How many times the driver was asked to connect. *)
Fixpoint connects (evs : list event) : nat :=
  match evs with
  | [] => 0
  | EvDriver (CallConnect _) _ :: rest => S (connects rest)
  | _ :: rest => connects rest
  end.

(** The world [w] with the environment variable [name] set to [value]. *)
Definition setenv (name value : string) (w : World D) : World D :=
  mkWorld (<[name := value]> (environ w)) (trace w) (driver w).

End Footprints.

(** ** A driver that fails on demand

    The reference server behind a driver whose [execute], [rollback] and
    [cursor.close] raise the exception they are given, if any. *)

Module Faulty.

Record Server : Type := mkServer {
  base : Ref.Server;
  execute_raises : option exception;
  rollback_raises : option exception;
  cursor_close_raises : option exception
}.

Definition lift {A} (op : Ref.Server → result A * Ref.Server) (s : Server)
    : result A * Server :=
  let '(r, b) := op (base s) in
  (r, mkServer b (execute_raises s) (rollback_raises s) (cursor_close_raises s)).

Definition or_raise {A} (e : option exception)
    (op : Server → result A * Server) (s : Server) : result A * Server :=
  match e with
  | Some e => (inl e, s)
  | None => op s
  end.

#[global] Instance pymysql : PyMySQL Server := {|
  pymysql_connect := λ p, lift (pymysql_connect p);
  Connection_cursor := λ h k, lift (Connection_cursor h k);
  Connection_commit := λ h, lift (Connection_commit h);
  Connection_rollback := λ h s,
    or_raise (rollback_raises s) (lift (Connection_rollback h)) s;
  Connection_close := λ h, lift (Connection_close h);
  Cursor_execute := λ cur q a s,
    or_raise (execute_raises s) (lift (Cursor_execute cur q a)) s;
  Cursor_fetchall := λ cur, lift (Cursor_fetchall cur);
  Cursor_rowcount := λ cur s, Cursor_rowcount cur (base s);
  Cursor_close := λ cur s,
    or_raise (cursor_close_raises s) (lift (Cursor_close cur)) s
|}.

Definition initial (s : Server) : World Server := mkWorld ∅ [] s.

(** [execute] raises an exception that is no [pymysql.Error]. *)
Definition formatting : Server :=
  mkServer Ref.server (Some (Exc ValueError "incomplete format")) None None.

(** The connection is lost: [execute] and [rollback] both raise. *)
Definition gone : Server :=
  mkServer Ref.server
    (Some (Exc PyMySQLError "(2006, MySQL server has gone away)"))
    (Some (Exc PyMySQLError "(0, )")) None.

(** [cursor.close] raises. *)
Definition unread : Server :=
  mkServer Ref.server None None
    (Some (Exc PyMySQLError "(2014, Commands out of sync)")).

End Faulty.

(** * Properties *)

(** ** The string primitives *)

Section StringFacts.
Import PyStr.


Lemma upper_char_space c : isspace c = true → upper_char c = c.
Proof.
  destruct c as [[] [] [] [] [] [] [] []]; vm_compute; congruence.
Qed.

Lemma rstrip_cons c r : isspace c = false → rstrip (String c r) = String c (rstrip r).
Proof. intros Hc. cbn. rewrite Hc. destruct (rstrip r); reflexivity. Qed.

Lemma rstrip_cons_space c r :
  isspace c = true → rstrip (String c r) = "" ∨ ∃ r', rstrip (String c r) = String c r'.
Proof. intros Hc. cbn. rewrite Hc. destruct (rstrip r); eauto. Qed.

(** Trailing white space never decides a prefix made of other characters. *)
Lemma startswith_upper_rstrip p x :
  blank_free p →
  startswith (upper (rstrip x)) p = startswith (upper x) p.
Proof.
  revert x. induction p as [|b p IH]; intros x Hp.
  - destruct (upper (rstrip x)), (upper x); reflexivity.
  - destruct Hp as [Hb Hp]. destruct x as [|a x]; [reflexivity|].
    destruct (isspace a) eqn:Ha.
    + assert (Ascii.eqb a b = false) as Hab.
      { apply Ascii.eqb_neq. congruence. }
      change (upper (String a x)) with (String (upper_char a) (upper x)).
      cbn [startswith]. rewrite (upper_char_space a Ha), Hab.
      destruct (rstrip_cons_space a x Ha) as [-> | [r' ->]]; [reflexivity|].
      cbn [upper startswith]. by rewrite (upper_char_space a Ha), Hab.
    + rewrite rstrip_cons by done. cbn [upper startswith].
      destruct (Ascii.eqb _ _); [by apply IH | reflexivity].
Qed.

Lemma append_cons c a b : String c a ++ b = String c (a ++ b).
Proof. reflexivity. Qed.

Lemma upper_app a b : upper (a ++ b) = upper a ++ upper b.
Proof.
  induction a as [|c a IH]; [reflexivity|].
  rewrite append_cons. cbn [upper]. by rewrite IH.
Qed.

Lemma startswith_app a t p : startswith a p = true → startswith (a ++ t) p = true.
Proof.
  revert a. induction p as [|b p IH]; intros a; [by destruct a, t|].
  destruct a as [|c a]; [discriminate|].
  rewrite append_cons. cbn [startswith].
  destruct (Ascii.eqb c b); [apply IH | discriminate].
Qed.



Lemma lstrip_app s t : lstrip s ≠ "" → lstrip (s ++ t) = lstrip s ++ t.
Proof.
  induction s as [|c s IH]; [done|].
  rewrite append_cons. cbn [lstrip].
  destruct (isspace c); [apply IH | done].
Qed.

Lemma lstrip_blank ws x : blank ws → lstrip (ws ++ x) = lstrip x.
Proof.
  induction ws as [|c ws IH]; [done|].
  rewrite append_cons. cbn [lstrip blank].
  intros [-> Hws]. by apply IH.
Qed.


Lemma blank_free_SELECT : blank_free "SELECT".
Proof. cbn. repeat split. Qed.

(** The security check looks at the text after the leading white space
    only: [rstrip] cannot reach the six characters it compares. *)
Lemma is_select_lstrip s : is_select s = startswith (upper (lstrip s)) "SELECT".
Proof. apply startswith_upper_rstrip, blank_free_SELECT. Qed.

Lemma is_select_app s t : is_select s = true → is_select (s ++ t) = true.
Proof.
  rewrite !is_select_lstrip. intros Hs.
  rewrite lstrip_app.
  - rewrite upper_app. by apply startswith_app.
  - intros Hnil. by rewrite Hnil in Hs.
Qed.


Lemma lstrip_empty s : lstrip s = "" ↔ blank s.
Proof.
  induction s as [|c s IH]; [done|]. cbn [lstrip blank].
  destruct (isspace c); [by rewrite IH; intuition | by intuition].
Qed.

Lemma rstrip_empty s : rstrip s = "" ↔ blank s.
Proof.
  induction s as [|c s IH]; [done|]. cbn [rstrip blank].
  destruct (rstrip s) eqn:Hr; destruct (isspace c); intuition congruence.
Qed.

Lemma lstrip_blank_iff s : blank (lstrip s) ↔ blank s.
Proof.
  induction s as [|c s IH]; [done|]. cbn [lstrip].
  destruct (isspace c) eqn:Hc; [|done]. rewrite IH. cbn [blank]. intuition.
Qed.

(** The fragments [execute_script] drops are those made of white space. *)
Lemma strip_empty s : strip s = "" ↔ blank s.
Proof. unfold strip. by rewrite rstrip_empty, lstrip_blank_iff. Qed.

Lemma truthy_true s : truthy s = true ↔ s ≠ "".
Proof. by destruct s. Qed.


End StringFacts.

(** ** The program *)

Section Properties.
Context {D : Type} `{!PyMySQL D, !Builtins}.
Implicit Types (w : World D) (db : Database) (e : exception) (d : D).
Local Open Scope list_scope.

#[local] Arguments rejected : simpl never.
#[local] Arguments succeeded : simpl never.
#[local] Arguments failed : simpl never.

(** Unfolds the monad, and [run] the methods with it. *)
Ltac monad :=
  cbv [mbind M_bind mret M_ret try_except raise gets modify log print
       world invoke self_conn set_conn the_conn is_Exception record_event];
  cbn [fst snd negb connection_params conn environ trace driver].

Ltac run :=
  cbv [execute_query execute_non_query execute_script connect disconnect
       rollback_if_connected execute_with call
       mbind M_bind mret M_ret try_except raise gets modify log print
       world invoke self_conn set_conn the_conn is_Exception record_event];
  cbn [fst snd negb connection_params conn environ trace driver].

(** A trace that only grew. *)
Ltac grown := repeat first [reflexivity | apply prefix_app_r].

(** Closes the goal of a run that ended with the driver raising [e0]. *)
Ltac ended_raising Hpre e0 :=
  let He := fresh "He" in
  destruct (is_Error e0) eqn:He; intros [= <- <- <-]; cbn [trace];
  (split;
   [ etrans; [exact Hpre|]; grown
   | intros ? [= <-]; eexists _, e0;
     (split; [apply last_snoc | unfold surfaced; by rewrite He]) ]).

(** The three ways [execute_sql_function] ends. *)
Lemma execute_sql_function_run (sql_query : string) w :
  execute_sql_function sql_query w =
    if is_select sql_query then
      match forward sql_query (announced sql_query w) with
      | (inr (results, _), w') => (inr (succeeded results sql_query), reported results w')
      | (inl e, w') => (inr (failed e sql_query), w')
      end
    else (inr (rejected sql_query), announced sql_query w).
Proof.
  unfold execute_sql_function, forward, announced, reported.
  destruct (is_select sql_query); monad; [|reflexivity].
  destruct (Database_init _) as [[e|db] w1]; [reflexivity|].
  destruct (execute_query _ _ _) as [[e|rows] [db' w2]]; reflexivity.
Qed.

Lemma connect_if_needed_connected db w h :
  conn db = Some h → connect_if_needed (db, w) = (inr tt, (db, w)).
Proof. intros Hc. unfold connect_if_needed. run. by rewrite Hc. Qed.

Lemma connect_if_needed_fresh db w :
  conn db = None →
  connect_if_needed (db, w) =
    let p := connection_params db in
    let '(r, d) := pymysql_connect p (driver w) in
    let w' := mkWorld (environ w) (trace w ++ [EvDriver (CallConnect p) (returned r)]) d in
    match r with
    | inr h => (inr tt, (mkDatabase p (Some h), w'))
    | inl e => (inl (surfaced (CallConnect p) e), (db, w'))
    end.
Proof.
  intros Hc. unfold connect_if_needed, surfaced. run. rewrite Hc. run.
  destruct (pymysql_connect _ _) as [[e|h] d]; cbn; [|reflexivity].
  by destruct (is_Error e).
Qed.

(** A lazy connect that returns leaves a connected instance, and the
    committed data as they were. *)
Lemma connect_if_needed_returns db w db1 w1 :
  connect_if_needed (db, w) = (inr tt, (db1, w1)) →
  is_Some (conn db1) ∧ environ w1 = environ w ∧ trace w `prefix_of` trace w1
  ∧ ∀ Store (committed_data : D → Store), Transactional committed_data →
      committed_data (driver w1) = committed_data (driver w).
Proof.
  destruct (conn db) as [h|] eqn:Hc.
  - rewrite (connect_if_needed_connected _ _ h Hc). intros [= <- <-].
    rewrite Hc. eauto.
  - rewrite connect_if_needed_fresh by done. cbn zeta.
    destruct (pymysql_connect _ _) as [[e|h] d] eqn:Hp; [done|].
    intros [= <- <-]. cbn. split_and!; [eauto | done | by apply prefix_app_r |].
    intros Store committed_data Hlaws.
    by rewrite <- (connect_keeps (connection_params db) (driver w)), Hp.
Qed.

Lemma connect_if_needed_raises db w e db1 w1 :
  connect_if_needed (db, w) = (inl e, (db1, w1)) →
  ∃ p e0, last (trace w1) = Some (EvDriver (CallConnect p) (Some e0))
          ∧ e = surfaced (CallConnect p) e0.
Proof.
  destruct (conn db) as [h|] eqn:Hc.
  - by rewrite (connect_if_needed_connected _ _ h Hc).
  - rewrite connect_if_needed_fresh by done. cbn zeta.
    destruct (pymysql_connect _ _) as [[e0|h] d] eqn:Hp; [|done].
    intros [= <- <- <-]. eexists _, _. split; [apply last_snoc | done].
Qed.

Lemma Database_init_run w :
  Database_init w =
    let w' := record_event EvDatabase w in
    let port_text := default "3306" (environ w !! "MYSQL_PORT") in
    match builtin_int port_text with
    | Some z =>
        (inr (mkDatabase
                {| host := default "localhost" (environ w !! "MYSQL_HOST");
                   port := z;
                   database := default "budget_db" (environ w !! "MYSQL_DATABASE");
                   user := default "root" (environ w !! "MYSQL_USERNAME");
                   password := default "" (environ w !! "MYSQL_PASSWORD");
                   autocommit := false |} None), w')
    | None =>
        (inl (Exc ValueError
                ("invalid literal for int() with base 10: "
                 ++ builtin_repr port_text)), w')
    end.
Proof.
  unfold Database_init, _get_config, getenv, int. monad.
  destruct (builtin_int _); reflexivity.
Qed.

Lemma Database_init_returns w db w' :
  Database_init w = (inr db, w') → w' = record_event EvDatabase w ∧ conn db = None.
Proof.
  rewrite Database_init_run. cbn zeta.
  destruct (builtin_int _); [|done]. by intros [= <- <-].
Qed.

Lemma Database_init_raises w e w' :
  Database_init w = (inl e, w') →
  w' = record_event EvDatabase w ∧ exc_str e ≠ "".
Proof.
  rewrite Database_init_run. cbn zeta.
  destruct (builtin_int _); [done|]. by intros [= <- <-].
Qed.

(** How one run of [execute_query] ends: the call is recorded first, and
    every exception it lets out comes from the driver call the trace ends
    with, wrapped when it is a [pymysql.Error]. *)
Lemma execute_query_ends q p db w r db' w' :
  execute_query q p (db, w) = (r, (db', w')) →
  (trace w ++ [EvExecuteQuery q p]) `prefix_of` trace w'
  ∧ ∀ e, r = inl e →
      ∃ c e0, last (trace w') = Some (EvDriver c (Some e0)) ∧ e = surfaced c e0.
Proof.
  unfold execute_query.
  cbv [mbind M_bind world log modify]; cbn [fst snd].
  destruct (connect_if_needed _) as [[e1|[]] [db1 w1]] eqn:Hcn.
  { intros [= <- <- <-].
    destruct (connect_if_needed_raises _ _ _ _ _ Hcn) as (pr & e0 & Hlast & ->).
    split; [|intros ? [= <-]; eauto].
    destruct (conn db) as [h|] eqn:Hc.
    - by rewrite (connect_if_needed_connected _ _ h Hc) in Hcn.
    - rewrite connect_if_needed_fresh in Hcn by done. cbn zeta in Hcn.
      destruct (pymysql_connect _ _) as [[e1|h] d]; [|done].
      injection Hcn as _ _ <-. cbn [trace]. grown. }
  apply connect_if_needed_returns in Hcn as ([h Hh] & _ & Hpre & _).
  destruct db1 as [pr c1]; cbn in Hh; subst c1.
  change (trace (record_event (EvExecuteQuery q p) w))
    with (trace w ++ [EvExecuteQuery q p]) in Hpre.
  unfold execute_with. run.
  destruct (Connection_cursor _ _ _) as [[e0|cur] d1]; [ended_raising Hpre e0|].
  cbn.
  destruct (truthy_params p);
    (destruct (Cursor_execute _ _ _ _) as [[e0|[]] d2]; [ended_raising Hpre e0|]);
    cbn;
    (destruct (Cursor_fetchall _ _) as [[e0|rows] d3]; [ended_raising Hpre e0|]);
    cbn;
    (destruct (Cursor_close _ _) as [[e0|[]] d4]; [ended_raising Hpre e0|]);
    intros [= <- <- <-]; cbn [trace];
    (split; [etrans; [exact Hpre|]; grown | done]).
Qed.

Lemma rejected_fields (q : string) :
  rejected q !! "error"
    = Some (PyStr "Only SELECT queries are allowed. Security check failed.")
  ∧ rejected q !! "sql_query" = Some (PyStr q)
  ∧ rejected q !! "success" = None
  ∧ rejected q !! "results" = None
  ∧ rejected q !! "row_count" = None.
Proof. repeat split; vm_compute; reflexivity. Qed.

Lemma succeeded_fields (rows : list Row) (q : string) :
  succeeded rows q !! "success" = Some (PyBool true)
  ∧ succeeded rows q !! "results" = Some (PyRows rows)
  ∧ succeeded rows q !! "row_count" = Some (PyInt (Z.of_nat (List.length rows)))
  ∧ succeeded rows q !! "sql_query" = Some (PyStr q)
  ∧ succeeded rows q !! "error" = None.
Proof. repeat split; vm_compute; reflexivity. Qed.

Lemma failed_fields e (q : string) :
  failed e q !! "success" = Some (PyBool false)
  ∧ failed e q !! "error" = Some (PyStr (exc_str e))
  ∧ failed e q !! "sql_query" = Some (PyStr q)
  ∧ failed e q !! "results" = None
  ∧ failed e q !! "row_count" = None.
Proof. repeat split; vm_compute; reflexivity. Qed.

(** Once [Database()] has returned, the query is handed to
    [execute_query] as it was received. *)
Lemma forward_trace (q : string) w db w1 r w2 :
  Database_init w = (inr db, w1) →
  forward q w = (r, w2) →
  (trace w ++ [EvDatabase; EvExecuteQuery q None]) `prefix_of` trace w2.
Proof.
  intros Hinit. unfold forward. monad. rewrite Hinit.
  apply Database_init_returns in Hinit as [-> _].
  destruct (execute_query _ _ _) as [r' [db' w']] eqn:Hq.
  apply execute_query_ends in Hq as [Hpre _].
  cbn [trace record_event] in Hpre. rewrite <- app_assoc in Hpre.
  by destruct r'; intros [= <- <-].
Qed.



Lemma accepted_is_forwarded (q : string) w db w1 :
  is_select q = true →
  Database_init (announced q w) = (inr db, w1) →
  ∃ out w' rest,
    execute_sql_function q w = (inr out, w')
    ∧ is_Some (out !! "success")
    ∧ trace w' = trace w
        ++ [EvPrint (OutExecuting q); EvDatabase; EvExecuteQuery q None] ++ rest.
Proof.
  intros Hq Hinit. rewrite execute_sql_function_run, Hq.
  destruct (forward q (announced q w)) as [r w2] eqn:Hf.
  destruct (forward_trace _ _ _ _ _ _ Hinit Hf) as [rest Hrest].
  cbn [announced record_event trace] in Hrest.
  rewrite <- !app_assoc in Hrest. cbn [app] in Hrest.
  destruct r as [e|[rows db']].
  - exists (failed e q), w2, rest. split_and!; [done| |done].
    by rewrite (proj1 (failed_fields e q)).
  - eexists (succeeded rows q), _, (rest ++ _). split_and!; [done| |].
    + by rewrite (proj1 (succeeded_fields rows q)).
    + unfold reported. cbn [record_event trace]. rewrite Hrest.
      rewrite <- !app_assoc. reflexivity.
Qed.

(** C1: a query whose trimmed, upper-cased text does not start with SELECT
    makes [execute_sql_function] return the error dictionary of the security
    check (it does not raise), and the only thing that happened is the
    printed line: no [Database] was constructed, no query was handed to
    [execute_query], no driver call was made, the driver state is as it
    was. *)
Theorem non_select_is_rejected_without_database_access (sql_query : string) w :
  is_select sql_query = false →
  ∃ out w',
    execute_sql_function sql_query w = (inr out, w')
    ∧ out !! "error"
        = Some (PyStr "Only SELECT queries are allowed. Security check failed.")
    ∧ out !! "results" = None
    ∧ trace w' = trace w ++ [EvPrint (OutExecuting sql_query)]
    ∧ driver w' = driver w
    ∧ environ w' = environ w.
Proof.
  intros Hq. rewrite execute_sql_function_run, Hq.
  exists (rejected sql_query), (announced sql_query w).
  pose proof (rejected_fields sql_query) as (? & ? & ? & ? & ?).
  split_and!; done.
Qed.


(** C3 (the code departs from it): the dictionary returned for
    "DELETE FROM departments" is an error outcome with no [success] key at
    all, whereas the handler's error outcome carries [success] false. *)
Theorem rejection_has_no_success_key w :
  ∃ out w',
    execute_sql_function "DELETE FROM departments" w = (inr out, w')
    ∧ is_Some (out !! "error")
    ∧ out !! "results" = None
    ∧ out !! "success" = None.
Proof.
  rewrite execute_sql_function_run.
  exists (rejected "DELETE FROM departments"), (announced "DELETE FROM departments" w).
  pose proof (rejected_fields "DELETE FROM departments") as (Herr & ? & ? & ? & ?).
  split_and!; [done | by rewrite Herr | done | done].
Qed.

(** What does hold of the outcome on every path: it has the rows or an
    error message, never both, and "success" is true with the rows, false
    or absent with the message. *)
Lemma outcome_has_rows_or_error (sql_query : string) w :
  ∃ out w',
    execute_sql_function sql_query w = (inr out, w')
    ∧ ((is_Some (out !! "results") ∧ out !! "error" = None
        ∧ out !! "success" = Some (PyBool true))
       ∨ (is_Some (out !! "error") ∧ out !! "results" = None
          ∧ out !! "success" ≠ Some (PyBool true))).
Proof.
  rewrite execute_sql_function_run.
  destruct (is_select sql_query).
  - destruct (forward _ _) as [[e|[rows db']] w'].
    + exists (failed e sql_query), w'. split; [done|]. right.
      pose proof (failed_fields e sql_query) as (Hs & He & _ & ? & _).
      by rewrite Hs, He.
    + eexists (succeeded rows sql_query), _. split; [done|]. left.
      pose proof (succeeded_fields rows sql_query) as (? & Hr & _ & _ & ?).
      by rewrite Hr.
  - eexists (rejected sql_query), _. split; [done|]. right.
    pose proof (rejected_fields sql_query) as (He & _ & Hs & ? & _).
    by rewrite He, Hs.
Qed.

(** C4: when the query passes the check and the database layer returns its
    rows, the outcome is the success dictionary, with the rows and with
    [row_count] their number; no rows give [results = []] and
    [row_count = 0]. *)
Theorem select_success_counts_rows (sql_query : string) w rows db w' :
  is_select sql_query = true →
  forward sql_query (announced sql_query w) = (inr (rows, db), w') →
  ∃ out,
    execute_sql_function sql_query w = (inr out, reported rows w')
    ∧ out !! "success" = Some (PyBool true)
    ∧ out !! "results" = Some (PyRows rows)
    ∧ out !! "row_count" = Some (PyInt (Z.of_nat (List.length rows)))
    ∧ out !! "error" = None
    ∧ (rows = [] → out !! "results" = Some (PyRows [])
                   ∧ out !! "row_count" = Some (PyInt 0)).
Proof.
  intros Hq Hf. rewrite execute_sql_function_run, Hq, Hf.
  exists (succeeded rows sql_query).
  pose proof (succeeded_fields rows sql_query) as (? & ? & ? & ? & ?).
  split_and!; try done. by intros ->.
Qed.

(** C10: on every path the returned dictionary binds "sql_query" to the
    string the function received, as it received it. *)
Theorem outcome_carries_original_query (sql_query : string) w :
  ∃ out w',
    execute_sql_function sql_query w = (inr out, w')
    ∧ out !! "sql_query" = Some (PyStr sql_query).
Proof.
  rewrite execute_sql_function_run.
  destruct (is_select sql_query).
  - destruct (forward _ _) as [[e|[rows db']] w'].
    + exists (failed e sql_query), w'. split; [done|apply failed_fields].
    + eexists (succeeded rows sql_query), _. split; [done|apply succeeded_fields].
  - eexists (rejected sql_query), _. split; [done|apply rejected_fields].
Qed.

(** C5: "SELECT 1; DROP TABLE departments;" passes the security check, and
    so does every accepted text with anything appended, a semicolon and a
    second statement included; a text that passes is handed to
    [execute_query] unchanged as soon as [Database()] has returned. *)
Theorem select_with_second_statement_is_forwarded :
  is_select "SELECT 1; DROP TABLE departments;" = true
  ∧ (∀ q rest : string, is_select q = true → is_select (q ++ rest)%string = true)
  ∧ ∀ (q : string) w db w1,
      is_select q = true →
      Database_init (announced q w) = (inr db, w1) →
      ∃ out w' more,
        execute_sql_function q w = (inr out, w')
        ∧ is_Some (out !! "success")
        ∧ trace w' = trace w
            ++ [EvPrint (OutExecuting q); EvDatabase; EvExecuteQuery q None]
            ++ more.
Proof.
  split_and!; [reflexivity | apply is_select_app | apply accepted_is_forwarded].
Qed.


Lemma disconnect_run db w :
  disconnect (db, w) =
    match conn db with
    | None => (inr tt, (db, w))
    | Some h =>
        let '(r, d) := Connection_close h (driver w) in
        let w' := mkWorld (environ w) (trace w ++ [EvDriver (CallClose h) (returned r)]) d in
        match r with
        | inr _ => (inr tt, (mkDatabase (connection_params db) None, w'))
        | inl e => (inl e, (db, w'))
        end
    end.
Proof.
  run. destruct (conn db) as [h|]; [|reflexivity]. run.
  by destruct (Connection_close _ _) as [[e|[]] d].
Qed.

(** C8: [disconnect] on an instance that is not connected returns and
    changes nothing; on a connected one it closes the connection and
    leaves the instance not connected; and two calls in a row do what one
    call does, whatever the state and the driver. *)
Theorem disconnect_is_idempotent db w :
  (disconnect;; disconnect) (db, w) = disconnect (db, w)
  ∧ (conn db = None → disconnect (db, w) = (inr tt, (db, w)))
  ∧ (∀ h d,
       conn db = Some h →
       Connection_close h (driver w) = (inr tt, d) →
       disconnect (db, w) =
         (inr tt, (mkDatabase (connection_params db) None,
                   mkWorld (environ w) (trace w ++ [ok (CallClose h)]) d)))
  ∧ (∀ db' w', disconnect (db, w) = (inr tt, (db', w')) → conn db' = None).
Proof.
  split_and!.
  - cbv [mbind M_bind]. rewrite disconnect_run.
    destruct (conn db) as [h|] eqn:Hc.
    + destruct (Connection_close _ _) as [[e|[]] d]; cbn beta iota zeta; [done|].
      by rewrite disconnect_run.
    + cbn beta iota. rewrite disconnect_run. by rewrite Hc.
  - intros Hc. rewrite disconnect_run. by rewrite Hc.
  - intros h d Hc Hclose. rewrite disconnect_run. by rewrite Hc, Hclose.
  - intros db' w'. rewrite disconnect_run.
    destruct (conn db) as [h|] eqn:Hc.
    + destruct (Connection_close _ _) as [[e|[]] d]; cbn zeta; [done|].
      by intros [= <- <-].
    + by intros [= <- <-].
Qed.

(** The statements [execute_script] sends: the fragments between the
    semicolons that are not white space only, stripped, in their order. *)
Lemma statements_of_spec (script q : string) :
  In q (statements_of script) ↔
  ∃ f, In f (PyStr.split ";" script) ∧ ¬ PyStr.blank f ∧ q = PyStr.strip f.
Proof.
  unfold statements_of. rewrite in_map_iff. split.
  - intros (f & <- & Hf). apply filter_In in Hf as [Hf Ht].
    exists f. split_and!; [done| |done].
    rewrite <- strip_empty. by apply truthy_true.
  - intros (f & Hf & Hb & ->). exists f. split; [done|].
    apply filter_In. split; [done|].
    apply truthy_true. by rewrite strip_empty.
Qed.

Lemma statements_of_truthy (script : string) :
  Forall (λ q, PyStr.truthy q = true) (statements_of script).
Proof.
  apply Forall_forall. intros q Hq. apply list_elem_of_In in Hq.
  unfold statements_of in Hq. apply in_map_iff in Hq as (f & <- & Hf).
  by apply filter_In in Hf as [_ Hf].
Qed.

Lemma world_call_run {A} (c : driver_call) (op : D → result A * D) db w :
  world (call c op) (db, w) =
    ((op (driver w)).1,
     (db, after w [EvDriver c (returned (op (driver w)).1)] (op (driver w)).2)).
Proof. cbv [world call after]. cbn [fst snd]. by destruct (op (driver w)). Qed.

(** The loop of [execute_script] sends every statement, until one raises. *)
Lemma for_each_execute cur (stmts : list string) db w :
  Forall (λ q, PyStr.truthy q = true) stmts →
  for_each stmts
    (λ statement,
       if PyStr.truthy statement
       then world (call (CallExecute cur statement None)
                        (Cursor_execute cur statement None))
       else mret tt) (db, w)
  = ((execute_all cur stmts (driver w)).1,
     (db, after w (execute_events cur stmts (driver w))
            (execute_all cur stmts (driver w)).2)).
Proof.
  intros Hall. revert w.
  induction Hall as [|q stmts Hq _ IH]; intros w.
  - unfold after. cbn. rewrite app_nil_r. by destruct w.
  - cbn [for_each execute_all execute_events]. rewrite Hq.
    cbv [mbind M_bind world call]. cbn [fst snd].
    destruct (Cursor_execute cur q None (driver w)) as [[e|[]] d]; [done|].
    rewrite IH. unfold after, ok. cbn [driver trace environ fst snd].
    by rewrite <- app_assoc.
Qed.

Lemma execute_all_returns cur (stmts : list string) d d' :
  execute_all cur stmts d = (inr tt, d') →
  execute_events cur stmts d = map (λ q, ok (CallExecute cur q None)) stmts.
Proof.
  revert d. induction stmts as [|q stmts IH]; intros d; [done|].
  cbn. destruct (Cursor_execute _ _ _ _) as [[e|[]] d1]; [done|].
  intros Hrest. by rewrite (IH _ Hrest).
Qed.

Lemma execute_all_raises cur (stmts : list string) d e d' :
  execute_all cur stmts d = (inl e, d') →
  ∃ sent failing rest,
    stmts = sent ++ failing :: rest
    ∧ execute_events cur stmts d
      = map (λ q, ok (CallExecute cur q None)) sent
        ++ [EvDriver (CallExecute cur failing None) (Some e)].
Proof.
  revert d. induction stmts as [|q stmts IH]; intros d; [done|].
  cbn. destruct (Cursor_execute _ _ _ _) as [[e1|[]] d1].
  - intros [= <- <-]. by exists [], q, stmts.
  - intros Hrest. destruct (IH _ Hrest) as (sent & failing & rest & -> & ->).
    by exists (q :: sent), failing, rest.
Qed.


(** Before the transaction: when the lazy connect fails, both methods let
    the [ConnectionError] of [connect] out; nothing was sent, and there is
    nothing to roll back. *)
Lemma lazy_connect_failure (query script : string) (params : option Row) db w e d :
  conn db = None →
  pymysql_connect (connection_params db) (driver w) = (inl e, d) →
  is_Error e = true →
  let raised :=
    Exc ConnectionError ("Failed to connect to database: " ++ exc_str e) in
  let left :=
    (db, after w [EvDriver (CallConnect (connection_params db)) (Some e)] d) in
  execute_non_query query params (db, w) = (inl raised, left)
  ∧ execute_script script (db, w) = (inl raised, left).
Proof.
  intros Hc Hp He raised left.
  assert (connect_if_needed (db, w) = (inl raised, left)) as Hcn.
  { rewrite connect_if_needed_fresh by done. cbn zeta. rewrite Hp.
    unfold surfaced. by rewrite He. }
  unfold execute_non_query, execute_script. cbv [mbind M_bind].
  by rewrite Hcn.
Qed.



End Properties.

(** ** The reference driver is transactional *)

Lemma Ref_transactional : Transactional Ref.committed.
Proof.
  split.
  - intros p d. cbn. by destruct (Ref.reachable d).
  - done.
  - intros cur q a d. cbn. unfold Ref.execute.
    destruct (PyStr.startswith _ _); [by destruct (Ref.lookup_query _ _)|].
    by destruct (Ref.mutating q).
  - done.
  - intros h d e d'. cbn. discriminate.
Qed.

#[local] Existing Instance Ref_transactional.

(** ** The theorems at concrete inputs *)

Local Open Scope list_scope.

Lemma non_select_is_rejected_witness :
  is_select "DELETE FROM departments" = false
  ∧ ∃ out w',
      execute_sql_function "DELETE FROM departments" (Ref.initial Ref.server)
        = (inr out, w')
      ∧ out !! "error"
          = Some (PyStr "Only SELECT queries are allowed. Security check failed.")
      ∧ out !! "results" = None
      ∧ trace w' = [EvPrint (OutExecuting "DELETE FROM departments")]
      ∧ driver w' = Ref.server
      ∧ environ w' = ∅.
Proof.
  split; [reflexivity|].
  apply (non_select_is_rejected_without_database_access
           "DELETE FROM departments" (Ref.initial Ref.server)).
  reflexivity.
Defined.

Lemma select_success_witness :
  is_select "select * from departments limit 1" = true
  ∧ (forward "select * from departments limit 1"
       (announced "select * from departments limit 1" (Ref.initial Ref.server))).1
      = inr (Ref.departments, Ref.connected)
  ∧ ∃ out w',
      execute_sql_function "select * from departments limit 1"
        (Ref.initial Ref.server) = (inr out, w')
      ∧ out !! "success" = Some (PyBool true)
      ∧ out !! "results" = Some (PyRows Ref.departments)
      ∧ out !! "row_count" = Some (PyInt 1)
      ∧ out !! "error" = None.
Proof.
  split; [reflexivity|]. split; [reflexivity|].
  edestruct (select_success_counts_rows
               "select * from departments limit 1" (Ref.initial Ref.server)
               Ref.departments Ref.connected)
    as (out & Hrun & Hs & Hr & Hc & He & _);
    [reflexivity | vm_compute; reflexivity |].
  exists out. eexists.
  split_and!; [exact Hrun | exact Hs | exact Hr | exact Hc | exact He].
Defined.


Lemma second_statement_witness :
  is_select "SELECT 1; DROP TABLE departments;" = true
  ∧ (Database_init
       (announced "SELECT 1; DROP TABLE departments;" (Ref.initial Ref.server))).1
      = inr Ref.fresh
  ∧ ∃ out w' more,
      execute_sql_function "SELECT 1; DROP TABLE departments;"
        (Ref.initial Ref.server) = (inr out, w')
      ∧ is_Some (out !! "success")
      ∧ trace w'
        = [EvPrint (OutExecuting "SELECT 1; DROP TABLE departments;");
           EvDatabase;
           EvExecuteQuery "SELECT 1; DROP TABLE departments;" None] ++ more.
Proof.
  split; [reflexivity|]. split; [reflexivity|].
  eapply (proj2 (proj2 select_with_second_statement_is_forwarded)
            "SELECT 1; DROP TABLE departments;" (Ref.initial Ref.server)).
  - reflexivity.
  - vm_compute. reflexivity.
Defined.


Lemma disconnect_witness :
  conn Ref.fresh = None
  ∧ disconnect (Ref.fresh, Ref.initial Ref.server)
      = (inr tt, (Ref.fresh, Ref.initial Ref.server))
  ∧ conn Ref.connected = Some 0
  ∧ disconnect (Ref.connected, Ref.initial Ref.server)
      = (inr tt, (Ref.fresh,
                  mkWorld ∅ [ok (CallClose 0)] Ref.server)).
Proof.
  split; [reflexivity|]. split.
  - apply (proj1 (proj2 (disconnect_is_idempotent
                           Ref.fresh (Ref.initial Ref.server)))).
    reflexivity.
  - split; [reflexivity|].
    apply (proj1 (proj2 (proj2 (disconnect_is_idempotent
                                  Ref.connected (Ref.initial Ref.server))))
             0 Ref.server); reflexivity.
Defined.



(** * Further properties *)

(** ** Splitting and stripping *)

Section MoreStringFacts.
Import PyStr.
Local Open Scope string_scope.

Lemma split_no_separator sep s :
  Forall (λ f, contains sep f = false) (split sep s).
Proof.
  induction s as [|c s IH]; [by repeat constructor|].
  cbn [split]. destruct (Ascii.eqb c sep) eqn:Hc.
  - by constructor.
  - destruct (split sep s) as [|f fs]; [by repeat constructor; cbn; rewrite Hc|].
    inversion IH as [|? ? Hf Hfs]; subst.
    constructor; [|done]. cbn. by rewrite Hc.
Qed.

Lemma contains_lstrip c s : contains c (lstrip s) = true → contains c s = true.
Proof.
  induction s as [|a s IH]; [done|]. cbn [lstrip].
  destruct (isspace a); [|done]. intros Hc. cbn. by rewrite IH, orb_true_r.
Qed.

Lemma contains_rstrip c s : contains c (rstrip s) = true → contains c s = true.
Proof.
  induction s as [|a s IH]; [done|]. cbn [rstrip].
  destruct (rstrip s) as [|b r] eqn:Hr.
  - destruct (isspace a); [done|]. cbn. by rewrite orb_false_r; intros ->.
  - cbn [contains] in *. destruct (Ascii.eqb a c); [done|]. cbn. exact IH.
Qed.

Lemma first_char_lstrip s a :
  first_char (lstrip s) = Some a → isspace a = false.
Proof.
  induction s as [|b s IH]; [done|]. cbn [lstrip].
  destruct (isspace b) eqn:Hb; [done|]. by intros [= <-].
Qed.

Lemma first_char_rstrip s a :
  first_char (rstrip s) = Some a → first_char s = Some a.
Proof.
  destruct s as [|b s]; [done|]. cbn [rstrip].
  destruct (rstrip s); [by destruct (isspace b)|done].
Qed.

Lemma last_char_rstrip s a :
  last_char (rstrip s) = Some a → isspace a = false.
Proof.
  induction s as [|b s IH]; [done|]. cbn [rstrip].
  destruct (rstrip s) as [|c r] eqn:Hr.
  - destruct (isspace b) eqn:Hb; [done|]. by intros [= <-].
  - exact IH.
Qed.

Lemma first_char_some s : s ≠ "" → is_Some (first_char s).
Proof. destruct s; [done|eauto]. Qed.

Lemma last_char_some s : s ≠ "" → is_Some (last_char s).
Proof.
  induction s as [|a s IH]; [done|]. intros _.
  destruct s as [|b s]; [by eexists|]. by apply IH.
Qed.

(** X1: a statement [execute_script] sends is never empty, has no white
    space at either end and contains no semicolon: a semicolon inside a
    quoted value cuts the statement in two. *)
Theorem statements_are_stripped_and_semicolon_free (script q : string) :
  In q (statements_of script) →
  contains ";" q = false
  ∧ ∃ a b, first_char q = Some a ∧ isspace a = false
           ∧ last_char q = Some b ∧ isspace b = false.
Proof.
  intros Hq. apply statements_of_spec in Hq as (f & Hf & Hblank & ->).
  assert (strip f ≠ "") as Hne by by rewrite strip_empty.
  split.
  - pose proof (split_no_separator ";" script) as Hall.
    rewrite Forall_forall in Hall. apply list_elem_of_In in Hf.
    specialize (Hall f Hf).
    destruct (contains ";" (strip f)) eqn:Hc; [|done].
    apply contains_rstrip, contains_lstrip in Hc. congruence.
  - destruct (first_char_some _ Hne) as [a Ha].
    destruct (last_char_some _ Hne) as [b Hb].
    exists a, b. split_and!; [done| |done|].
    + apply first_char_rstrip in Ha. by apply first_char_lstrip in Ha.
    + by apply last_char_rstrip in Hb.
Qed.



Lemma isspace_upper_char c : isspace (upper_char c) = isspace c.
Proof. destruct c as [[] [] [] [] [] [] [] []]; reflexivity. Qed.

Lemma isspace_lower_char c : isspace (lower_char c) = isspace c.
Proof. destruct c as [[] [] [] [] [] [] [] []]; reflexivity. Qed.

Lemma upper_char_idem c : upper_char (upper_char c) = upper_char c.
Proof. destruct c as [[] [] [] [] [] [] [] []]; reflexivity. Qed.

Lemma upper_lower_char c : upper_char (lower_char c) = upper_char c.
Proof. destruct c as [[] [] [] [] [] [] [] []]; reflexivity. Qed.


Lemma lstrip_upper s : lstrip (upper s) = upper (lstrip s).
Proof.
  induction s as [|c s IH]; [done|]. cbn [upper lstrip].
  rewrite isspace_upper_char. by destruct (isspace c).
Qed.

Lemma lstrip_lower s : lstrip (lower s) = lower (lstrip s).
Proof.
  induction s as [|c s IH]; [done|]. cbn [lower lstrip].
  rewrite isspace_lower_char. by destruct (isspace c).
Qed.

Lemma upper_idem s : upper (upper s) = upper s.
Proof.
  induction s as [|c s IH]; [done|]. cbn [upper].
  by rewrite upper_char_idem, IH.
Qed.

Lemma upper_lower s : upper (lower s) = upper s.
Proof.
  induction s as [|c s IH]; [done|]. cbn [upper lower].
  by rewrite upper_lower_char, IH.
Qed.

Lemma blank_app a b : blank a → blank b → blank (a ++ b).
Proof.
  induction a as [|c a IH]; [done|]. rewrite append_cons. cbn [blank].
  intros [Hc Ha] Hb. split; [done|by apply IH].
Qed.

Lemma rstrip_app_blank x ws : blank ws → rstrip (x ++ ws) = rstrip x.
Proof.
  intros Hws. induction x as [|c x IH].
  - change ("" ++ ws) with ws. by apply rstrip_empty.
  - rewrite append_cons. cbn [rstrip]. by rewrite IH.
Qed.

Lemma strip_app_blank x ws : blank ws → strip (x ++ ws) = strip x.
Proof.
  intros Hws. unfold strip.
  destruct (lstrip x) as [|c r] eqn:Hx.
  - apply lstrip_empty in Hx.
    assert (lstrip (x ++ ws) = "") as -> by by apply lstrip_empty, blank_app.
    done.
  - rewrite lstrip_app by by rewrite Hx. rewrite Hx.
    by apply rstrip_app_blank.
Qed.

Lemma strip_blank_app ws x : blank ws → strip (ws ++ x) = strip x.
Proof. intros Hws. unfold strip. by rewrite lstrip_blank. Qed.

(** X3: the security check does not depend on the case of the letters nor
    on white space around the text: upper-casing it, lower-casing it, or
    adding white space before and after leaves the verdict as it is. *)
Theorem is_select_ignores_case_and_padding (q before after : string) :
  blank before → blank after →
  is_select (upper q) = is_select q
  ∧ is_select (lower q) = is_select q
  ∧ is_select (before ++ q ++ after) = is_select q.
Proof.
  intros Hb Ha. split_and!.
  - by rewrite !is_select_lstrip, lstrip_upper, upper_idem.
  - by rewrite !is_select_lstrip, lstrip_lower, upper_lower.
  - unfold is_select. by rewrite strip_blank_app, strip_app_blank.
Qed.


End MoreStringFacts.

(** ** The database layer and the tool, end to end *)

Section MoreProperties.
Context {D : Type} `{!PyMySQL D, !Builtins}.
Implicit Types (w : World D) (db : Database) (e : exception) (d : D).
Local Open Scope list_scope.

#[local] Arguments rejected : simpl never.
#[local] Arguments succeeded : simpl never.
#[local] Arguments failed : simpl never.

Ltac unfold_monad :=
  cbv [mbind M_bind mret M_ret try_except raise gets modify log print
       world invoke self_conn set_conn the_conn is_Exception record_event];
  cbn [fst snd negb connection_params conn environ trace driver].

Ltac unfold_methods :=
  cbv [execute_query execute_non_query execute_script connect disconnect
       rollback_if_connected execute_with call
       mbind M_bind mret M_ret try_except raise gets modify log print
       world invoke self_conn set_conn the_conn is_Exception record_event];
  cbn [fst snd negb connection_params conn environ trace driver].

Lemma extends_refl P (t : list event) : extends P t t.
Proof. exists []. by rewrite app_nil_r. Qed.

Lemma extends_snoc P (t t' : list event) ev :
  extends P t t' → P ev → extends P t (t' ++ [ev]).
Proof.
  intros (new & -> & Hnew) Hev. exists (new ++ [ev]).
  split; [by rewrite app_assoc|]. apply Forall_app. by repeat constructor.
Qed.

Lemma extends_trans P (t t' t'' : list event) :
  extends P t t' → extends P t' t'' → extends P t t''.
Proof.
  intros (n1 & -> & H1) (n2 & -> & H2). exists (n1 ++ n2).
  split; [by rewrite app_assoc|]. by apply Forall_app.
Qed.

Lemma extends_weaken (P Q : event → Prop) (t t' : list event) :
  (∀ ev, P ev → Q ev) → extends P t t' → extends Q t t'.
Proof.
  intros HPQ (new & -> & Hnew). exists new. split; [done|].
  eapply Forall_impl; eauto.
Qed.

(** Closes a goal [extends P t (((t ++ [a]) ++ ...) ++ [z])]. *)
Ltac extended :=
  repeat first [apply extends_refl | apply extends_snoc; [|by cbn]].

Lemma connect_if_needed_footprint (P : event → Prop) db w r db' w' :
  (∀ p raised, P (EvDriver (CallConnect p) raised)) →
  connect_if_needed (db, w) = (r, (db', w')) →
  extends P (trace w) (trace w').
Proof.
  intros HP. destruct (conn db) as [h|] eqn:Hc.
  - rewrite (connect_if_needed_connected _ _ h Hc). intros [= <- <- <-].
    apply extends_refl.
  - rewrite connect_if_needed_fresh by done. cbn zeta.
    destruct (pymysql_connect _ _) as [[e|h] d]; intros [= <- <- <-];
      cbn [trace]; apply extends_snoc; auto using extends_refl.
Qed.

(** The driver calls of [execute_query], whatever the driver does. *)
Lemma execute_query_footprint (q : string) p db w r db' w' :
  execute_query q p (db, w) = (r, (db', w')) →
  extends (query_event q (execute_args p)) (trace w) (trace w').
Proof.
  unfold execute_query.
  cbv [mbind M_bind world log modify]; cbn [fst snd].
  destruct (connect_if_needed _) as [[e1|[]] [db1 w1]] eqn:Hcn.
  { intros [= <- <- <-].
    eapply extends_trans; [|eapply connect_if_needed_footprint; [|exact Hcn]; done].
    cbn [record_event trace]. extended. }
  assert (extends (query_event q (execute_args p)) (trace w) (trace w1)) as Hpre.
  { eapply extends_trans; [|eapply connect_if_needed_footprint; [|exact Hcn]; done].
    cbn [record_event trace]. extended. }
  apply connect_if_needed_returns in Hcn as ([h Hh] & _).
  destruct db1 as [pr c1]; cbn in Hh; subst c1.
  unfold execute_with, execute_args in *. unfold_methods.
  destruct (Connection_cursor _ _ _) as [[e0|cur] d1].
  { destruct (is_Error e0); intros [= <- <- <-]; cbn [trace];
      (eapply extends_trans; [exact Hpre|]); extended. }
  cbn.
  destruct (truthy_params p);
    (destruct (Cursor_execute _ _ _ _) as [[e0|[]] d2];
     [ destruct (is_Error e0); intros [= <- <- <-]; cbn [trace];
       (eapply extends_trans; [exact Hpre|]); extended |]);
    cbn;
    (destruct (Cursor_fetchall _ _) as [[e0|rows] d3];
     [ destruct (is_Error e0); intros [= <- <- <-]; cbn [trace];
       (eapply extends_trans; [exact Hpre|]); extended |]);
    cbn;
    (destruct (Cursor_close _ _) as [[e0|[]] d4];
     [ destruct (is_Error e0); intros [= <- <- <-]; cbn [trace];
       (eapply extends_trans; [exact Hpre|]); extended |]);
    intros [= <- <- <-]; cbn [trace];
    (eapply extends_trans; [exact Hpre|]); extended.
Qed.

(** X5: whatever the input and whatever the driver does,
    [execute_sql_function] only prints, constructs a [Database], and has
    the driver connect, open a [DictCursor], execute the text it received
    (unchanged, with no parameters), fetch, and close the cursor.  It
    never commits, never rolls back, and never closes the connection it
    opened. *)
Theorem execute_sql_function_footprint (sql_query : string) w :
  ∃ out w',
    execute_sql_function sql_query w = (inr out, w')
    ∧ extends (query_event sql_query None) (trace w) (trace w').
Proof.
  rewrite execute_sql_function_run.
  assert (extends (query_event sql_query None) (trace w)
            (trace (announced sql_query w))) as Hprint.
  { cbn. extended. }
  destruct (is_select sql_query); [|by eauto].
  assert (∀ r w1, forward sql_query (announced sql_query w) = (r, w1) →
            extends (query_event sql_query None) (trace w) (trace w1)) as Hfw.
  { intros r w1. unfold forward. unfold_monad.
    destruct (Database_init _) as [[e|db] w0] eqn:Hinit.
    - intros [= <- <-]. apply Database_init_raises in Hinit as [-> _].
      eapply extends_trans; [exact Hprint|]. cbn [record_event trace]. extended.
    - apply Database_init_returns in Hinit as [-> _].
      destruct (execute_query _ _ _) as [r' [db' w']] eqn:Hq.
      apply execute_query_footprint in Hq.
      assert (extends (query_event sql_query None) (trace w) (trace w')).
      { eapply extends_trans; [exact Hprint|].
        eapply extends_trans; [|exact Hq]. cbn [record_event trace]. extended. }
      by destruct r'; intros [= <- <-]. }
  destruct (forward _ _) as [[e|[rows db']] w1] eqn:Hf.
  - eauto.
  - eexists _, _. split; [done|].
    eapply extends_trans; [by eapply Hfw|].
    unfold reported. cbn [record_event trace]. extended.
Qed.

Lemma answered_run {A} (c : driver_call) (op : D → result A * D) db w :
  world (call c op) (db, w) = ((answered c op w).1, (db, (answered c op w).2)).
Proof. rewrite world_call_run. reflexivity. Qed.

(** [execute_non_query] on a connected instance, call by call. *)
Lemma execute_non_query_run (query : string) params pr h w :
  let db := mkDatabase pr (Some h) in
  let what := "Query execution failed: "%string in
  execute_non_query query params (db, w) =
    let '(r1, w1) :=
      answered (CallCursor h DefaultCursor) (Connection_cursor h DefaultCursor) w in
    match r1 with
    | inl e => handled what db h e w1
    | inr cur =>
        let '(r2, w2) :=
          answered (CallExecute cur query (execute_args params))
            (Cursor_execute cur query (execute_args params)) w1 in
        match r2 with
        | inl e => handled what db h e w2
        | inr _ =>
            committed_and_closed what db h cur (Cursor_rowcount cur (driver w2)) w2
        end
    end.
Proof.
  intros db what. subst db what. unfold execute_non_query.
  cbv [mbind M_bind]. rewrite (connect_if_needed_connected (mkDatabase pr (Some h)) w h eq_refl).
  unfold execute_with, execute_args, committed_and_closed, handled, answered, after.
  unfold_methods.
  destruct (Connection_cursor _ _ _) as [[e|cur] d1]; cbn.
  { destruct (is_Error e); [|done]; cbn.
    by destruct (Connection_rollback _ _) as [[e'|[]] d']. }
  destruct (truthy_params params);
    (destruct (Cursor_execute _ _ _ _) as [[e|[]] d2]; cbn;
     [ destruct (is_Error e); [|done]; cbn;
       by destruct (Connection_rollback _ _) as [[e'|[]] d'] |]);
    (destruct (Connection_commit _ _) as [[e|[]] d3]; cbn;
     [ destruct (is_Error e); [|done]; cbn;
       by destruct (Connection_rollback _ _) as [[e'|[]] d'] |]);
    (destruct (Cursor_close _ _) as [[e|[]] d4]; cbn; [|done]);
    (destruct (is_Error e); [|done]); cbn;
    by destruct (Connection_rollback _ _) as [[e'|[]] d'].
Qed.

(** [execute_script] on a connected instance, call by call. *)
Lemma execute_script_run (script : string) pr h w :
  let db := mkDatabase pr (Some h) in
  let what := "Script execution failed: "%string in
  execute_script script (db, w) =
    let '(r1, w1) :=
      answered (CallCursor h DefaultCursor) (Connection_cursor h DefaultCursor) w in
    match r1 with
    | inl e => handled what db h e w1
    | inr cur =>
        let stmts := statements_of script in
        let w2 := after w1 (execute_events cur stmts (driver w1))
                    (execute_all cur stmts (driver w1)).2 in
        match (execute_all cur stmts (driver w1)).1 with
        | inl e => handled what db h e w2
        | inr _ => committed_and_closed what db h cur tt w2
        end
    end.
Proof.
  intros db what. subst db what. unfold execute_script.
  cbv [mbind M_bind]. rewrite (connect_if_needed_connected (mkDatabase pr (Some h)) w h eq_refl).
  cbv [try_except mbind M_bind the_conn self_conn gets mret M_ret raise
       rollback_if_connected].
  cbn [fst snd conn]. rewrite world_call_run.
  unfold committed_and_closed, handled, answered.
  destruct (Connection_cursor _ _ _) as [[e|cur] d1]; cbn [fst snd returned].
  { destruct (is_Error e); [|done]. cbn [fst snd conn].
    rewrite world_call_run. cbn [after driver].
    by destruct (Connection_rollback _ _) as [[e'|[]] d']. }
  pose proof (for_each_execute cur (statements_of script) (mkDatabase pr (Some h))
                (after w [EvDriver (CallCursor h DefaultCursor) None] d1)
                (statements_of_truthy script)) as Hloop.
  cbn [after driver] in Hloop. cbv [mret M_ret] in Hloop.
  rewrite Hloop. clear Hloop. cbn [after driver fst snd].
  destruct (execute_all _ _ _) as [[e|[]] d2]; cbn [fst snd conn].
  { destruct (is_Error e); [|done]. cbn [fst snd conn].
    rewrite world_call_run. cbn [after driver].
    by destruct (Connection_rollback _ _) as [[e'|[]] d']. }
  rewrite world_call_run. cbn [after driver].
  destruct (Connection_commit _ _) as [[e|[]] d3]; cbn [fst snd returned conn].
  { destruct (is_Error e); [|done]. cbn [fst snd conn].
    rewrite world_call_run. cbn [after driver].
    by destruct (Connection_rollback _ _) as [[e'|[]] d']. }
  rewrite world_call_run. cbn [after driver].
  destruct (Cursor_close _ _) as [[e|[]] d4]; cbn [fst snd returned conn]; [|done].
  destruct (is_Error e); [|done]. cbn [fst snd conn].
  rewrite world_call_run. cbn [after driver].
  by destruct (Connection_rollback _ _) as [[e'|[]] d'].
Qed.

(** [execute_query] after its lazy connect, call by call. *)
Lemma execute_query_run (q : string) p db w db1 w1 h :
  connect_if_needed (db, record_event (EvExecuteQuery q p) w)
    = (inr tt, (db1, w1)) →
  conn db1 = Some h →
  execute_query q p (db, w) = query_run q p db1 h w1.
Proof.
  intros Hcn Hh. unfold execute_query.
  cbv [mbind M_bind world log modify]; cbn [fst snd]. rewrite Hcn.
  destruct db1 as [pr c1]; cbn in Hh; subst c1.
  unfold query_run, execute_with, execute_args, surfaced, answered, after.
  unfold_methods.
  destruct (Connection_cursor _ _ _) as [[e|cur] d1]; cbn;
    [destruct (is_Error e); reflexivity|].
  destruct (truthy_params p);
    (destruct (Cursor_execute _ _ _ _) as [[e|[]] d2]; cbn;
     [destruct (is_Error e); reflexivity|]);
    (destruct (Cursor_fetchall _ _) as [[e|rows] d3]; cbn;
     [destruct (is_Error e); reflexivity|]);
    (destruct (Cursor_close _ _) as [[e|[]] d4]; cbn; [|reflexivity]);
    destruct (is_Error e); reflexivity.
Qed.

Lemma extends_app P (t t' evs : list event) :
  extends P t t' → Forall P evs → extends P t (t' ++ evs).
Proof.
  intros (new & -> & Hnew) Hevs. exists (new ++ evs).
  split; [by rewrite app_assoc|]. by apply Forall_app.
Qed.

#[local] Abbreviation kept := (λ ev, keeps_connection ev = true).

Lemma handled_kept {A} what db h e w (r : result A) db' w' :
  handled what db h e w = (r, (db', w')) →
  db' = db ∧ extends kept (trace w) (trace w').
Proof.
  unfold handled, after. destruct (is_Error e).
  - destruct (Connection_rollback _ _) as [[e'|[]] d]; intros [= <- <- <-];
      (split; [done|]); cbn [trace]; extended.
  - intros [= <- <- <-]. split; [done|apply extends_refl].
Qed.

Lemma committed_and_closed_kept {A} what db h cur (a : A) w r db' w' :
  committed_and_closed what db h cur a w = (r, (db', w')) →
  db' = db ∧ extends kept (trace w) (trace w').
Proof.
  unfold committed_and_closed, answered, after. cbn [fst snd].
  assert (∀ w1 e, extends kept (trace w) (trace w1) →
            handled what db h e w1 = (r, (db', w')) →
            db' = db ∧ extends kept (trace w) (trace w')) as Hh.
  { intros w1 e Hpre Hrun. apply handled_kept in Hrun as [-> Hext].
    split; [done|]. by eapply extends_trans. }
  destruct (Connection_commit _ _) as [[e|[]] d3]; cbn [fst snd returned driver].
  { apply Hh. cbn [trace]. extended. }
  destruct (Cursor_close _ _) as [[e|[]] d4]; cbn [fst snd returned].
  { apply Hh. cbn [trace]. extended. }
  intros [= <- <- <-]. split; [done|]. cbn [trace]. extended.
Qed.

Lemma execute_events_kept cur (stmts : list string) d :
  Forall kept (execute_events cur stmts d).
Proof.
  revert d. induction stmts as [|q stmts IH]; intros d; [constructor|].
  cbn [execute_events].
  destruct (Cursor_execute _ _ _ _) as [[e|[]] d1]; by repeat constructor.
Qed.

Lemma query_run_kept (q : string) p db h w r db' w' :
  query_run q p db h w = (r, (db', w')) →
  db' = db ∧ extends kept (trace w) (trace w').
Proof.
  unfold query_run, answered, after. cbn [fst snd driver].
  destruct (Connection_cursor _ _ _) as [[e|cur] d1]; cbn [fst snd returned];
    [intros [= <- <- <-]; (split; [done|]); cbn [trace]; extended|].
  destruct (Cursor_execute _ _ _ _) as [[e|[]] d2]; cbn [fst snd returned];
    [intros [= <- <- <-]; (split; [done|]); cbn [trace]; extended|].
  destruct (Cursor_fetchall _ _) as [[e|rows] d3]; cbn [fst snd returned];
    [intros [= <- <- <-]; (split; [done|]); cbn [trace]; extended|].
  destruct (Cursor_close _ _) as [[e|[]] d4]; cbn [fst snd returned];
    intros [= <- <- <-]; (split; [done|]); cbn [trace]; extended.
Qed.

(** X10: an instance that is connected goes through [execute_query],
    [execute_non_query] and [execute_script] with the same connection,
    whether they return or raise and whatever the driver does: none of
    them connects again, none closes the connection. *)
Theorem connected_instance_stays_connected
    (query script : string) (params : option Row) db w h :
  conn db = Some h →
  (∀ r db' w',
     execute_query query params (db, w) = (r, (db', w')) →
     db' = db ∧ extends (λ ev, keeps_connection ev = true) (trace w) (trace w'))
  ∧ (∀ r db' w',
       execute_non_query query params (db, w) = (r, (db', w')) →
       db' = db ∧ extends (λ ev, keeps_connection ev = true) (trace w) (trace w'))
  ∧ (∀ r db' w',
       execute_script script (db, w) = (r, (db', w')) →
       db' = db ∧ extends (λ ev, keeps_connection ev = true) (trace w) (trace w')).
Proof.
  intros Hh. destruct db as [pr c]; cbn in Hh; subst c.
  assert (∀ A what e w1 (r : result A) db' w',
            extends kept (trace w) (trace w1) →
            handled what (mkDatabase pr (Some h)) h e w1 = (r, (db', w')) →
            db' = mkDatabase pr (Some h) ∧ extends kept (trace w) (trace w')) as Hh.
  { intros A what e w1 r db' w' Hpre Hrun. apply handled_kept in Hrun as [-> Hext].
    split; [done|]. by eapply extends_trans. }
  assert (∀ A what cur (a : A) w1 (r : result A) db' w',
            extends kept (trace w) (trace w1) →
            committed_and_closed what (mkDatabase pr (Some h)) h cur a w1
              = (r, (db', w')) →
            db' = mkDatabase pr (Some h) ∧ extends kept (trace w) (trace w')) as Hc.
  { intros A what cur a w1 r db' w' Hpre Hrun.
    apply committed_and_closed_kept in Hrun as [-> Hext].
    split; [done|]. by eapply extends_trans. }
  split_and!; intros r db' w'.
  - rewrite (execute_query_run query params _ w _ _ h
               (connect_if_needed_connected (mkDatabase pr (Some h)) _ h eq_refl)
               eq_refl).
    intros Hrun. apply query_run_kept in Hrun as [-> Hext]. split; [done|].
    eapply extends_trans; [|exact Hext]. cbn [record_event trace]. extended.
  - rewrite execute_non_query_run. cbn zeta.
    unfold answered, after. cbn [fst snd driver].
    destruct (Connection_cursor _ _ _) as [[e|cur] d1]; cbn [fst snd returned].
    { apply Hh. cbn [trace]. extended. }
    destruct (Cursor_execute _ _ _ _) as [[e|[]] d2]; cbn [fst snd returned].
    { apply Hh. cbn [trace]. extended. }
    apply Hc. cbn [trace]. extended.
  - rewrite execute_script_run. cbn zeta.
    unfold answered, after. cbn [fst snd driver].
    destruct (Connection_cursor _ _ _) as [[e|cur] d1]; cbn [fst snd returned].
    { apply Hh. cbn [trace]. extended. }
    assert (extends kept (trace w)
              ((trace w ++ [EvDriver (CallCursor h DefaultCursor) None])
               ++ execute_events cur (statements_of script) d1)) as Hloop.
    { apply extends_app; [extended | apply execute_events_kept]. }
    destruct (execute_all _ _ _) as [[e|[]] d2]; cbn [fst snd].
    { by apply Hh. }
    by apply Hc.
Qed.

(** X12: an exception of the driver that is no [pymysql.Error] (a
    [ValueError] or [TypeError] while formatting the parameters, say)
    leaves [execute_non_query] and [execute_script] as it is: no rollback
    is sent, no [RuntimeError] is made of it, and the statements already
    executed stay in the open transaction. *)
Theorem other_exceptions_skip_the_rollback
    (query script : string) (params : option Row) db w h cur d1 e :
  conn db = Some h →
  Connection_cursor h DefaultCursor (driver w) = (inr cur, d1) →
  is_Error e = false →
  (∀ d2,
     Cursor_execute cur query (execute_args params) d1 = (inl e, d2) →
     execute_non_query query params (db, w) =
       (inl e,
        (db, after w [ok (CallCursor h DefaultCursor);
                      EvDriver (CallExecute cur query (execute_args params))
                        (Some e)] d2)))
  ∧ (∀ d2,
       execute_all cur (statements_of script) d1 = (inl e, d2) →
       ∃ before failing rest,
         statements_of script = before ++ failing :: rest
         ∧ execute_script script (db, w) =
             (inl e,
              (db, after w (ok (CallCursor h DefaultCursor)
                            :: map (λ q, ok (CallExecute cur q None)) before
                            ++ [EvDriver (CallExecute cur failing None) (Some e)])
                     d2))).
Proof.
  intros Hh Hcur He. destruct db as [pr c]; cbn in Hh; subst c. split.
  - intros d2 Hex. rewrite execute_non_query_run. cbn zeta.
    unfold answered, handled, after, ok. cbn [fst snd driver].
    rewrite Hcur. cbn [fst snd returned trace environ]. rewrite Hex.
    cbn [fst snd returned trace environ]. rewrite He.
    by rewrite <- app_assoc.
  - intros d2 Hex.
    destruct (execute_all_raises _ _ _ _ _ Hex)
      as (before & failing & rest & Hsplit & Hevs).
    exists before, failing, rest. split; [done|].
    rewrite execute_script_run. cbn zeta.
    unfold answered, handled, after, ok in *. cbn [fst snd driver].
    rewrite Hcur. cbn [fst snd returned trace environ driver].
    rewrite Hex, Hevs. cbn [fst snd]. rewrite He.
    by rewrite <- app_assoc.
Qed.

(** X13: when the statement raises a [pymysql.Error] and the rollback
    raises too (the connection is gone), [execute_non_query] and
    [execute_script] raise what the rollback raised, not the
    [RuntimeError] they would have made of the first error. *)
Theorem failed_rollback_replaces_the_error
    (query script : string) (params : option Row) db w h cur d1 e e' :
  conn db = Some h →
  Connection_cursor h DefaultCursor (driver w) = (inr cur, d1) →
  is_Error e = true →
  (∀ d2 d3,
     Cursor_execute cur query (execute_args params) d1 = (inl e, d2) →
     Connection_rollback h d2 = (inl e', d3) →
     execute_non_query query params (db, w) =
       (inl e',
        (db, after w [ok (CallCursor h DefaultCursor);
                      EvDriver (CallExecute cur query (execute_args params))
                        (Some e);
                      EvDriver (CallRollback h) (Some e')] d3)))
  ∧ (∀ d2 d3,
       execute_all cur (statements_of script) d1 = (inl e, d2) →
       Connection_rollback h d2 = (inl e', d3) →
       ∃ before failing rest,
         statements_of script = before ++ failing :: rest
         ∧ execute_script script (db, w) =
             (inl e',
              (db, after w (ok (CallCursor h DefaultCursor)
                            :: map (λ q, ok (CallExecute cur q None)) before
                            ++ [EvDriver (CallExecute cur failing None) (Some e);
                                EvDriver (CallRollback h) (Some e')])
                     d3))).
Proof.
  intros Hh Hcur He. destruct db as [pr c]; cbn in Hh; subst c. split.
  - intros d2 d3 Hex Hrb. rewrite execute_non_query_run. cbn zeta.
    unfold answered, handled, after, ok. cbn [fst snd driver].
    rewrite Hcur. cbn [fst snd returned trace environ]. rewrite Hex.
    cbn [fst snd returned trace environ driver]. rewrite He, Hrb.
    cbn [returned]. by rewrite <- !app_assoc.
  - intros d2 d3 Hex Hrb.
    destruct (execute_all_raises _ _ _ _ _ Hex)
      as (before & failing & rest & Hsplit & Hevs).
    exists before, failing, rest. split; [done|].
    rewrite execute_script_run. cbn zeta.
    unfold answered, handled, after, ok in *. cbn [fst snd driver].
    rewrite Hcur. cbn [fst snd returned trace environ driver].
    rewrite Hex, Hevs. cbn [fst snd driver]. rewrite He, Hrb.
    cbn [returned trace environ]. do 3 f_equal.
    rewrite <- !app_assoc. reflexivity.
Qed.

(** X14: [cursor.close()] comes after the commit inside the same [try]:
    when it raises a [pymysql.Error], [execute_non_query] and
    [execute_script] send a rollback and raise [RuntimeError] although
    the commit has returned. *)
Theorem error_after_commit_still_raises
    (query script : string) (params : option Row) db w h cur d1 e :
  conn db = Some h →
  Connection_cursor h DefaultCursor (driver w) = (inr cur, d1) →
  is_Error e = true →
  (∀ d2 d3 d4 d5,
     Cursor_execute cur query (execute_args params) d1 = (inr tt, d2) →
     Connection_commit h d2 = (inr tt, d3) →
     Cursor_close cur d3 = (inl e, d4) →
     Connection_rollback h d4 = (inr tt, d5) →
     execute_non_query query params (db, w) =
       (inl (Exc RuntimeError ("Query execution failed: " ++ exc_str e)),
        (db, after w [ok (CallCursor h DefaultCursor);
                      ok (CallExecute cur query (execute_args params));
                      ok (CallCommit h);
                      EvDriver (CallCursorClose cur) (Some e);
                      ok (CallRollback h)] d5)))
  ∧ (∀ d2 d3 d4 d5,
       execute_all cur (statements_of script) d1 = (inr tt, d2) →
       Connection_commit h d2 = (inr tt, d3) →
       Cursor_close cur d3 = (inl e, d4) →
       Connection_rollback h d4 = (inr tt, d5) →
       execute_script script (db, w) =
         (inl (Exc RuntimeError ("Script execution failed: " ++ exc_str e)),
          (db, after w (ok (CallCursor h DefaultCursor)
                        :: map (λ q, ok (CallExecute cur q None))
                             (statements_of script)
                        ++ [ok (CallCommit h);
                            EvDriver (CallCursorClose cur) (Some e);
                            ok (CallRollback h)]) d5))).
Proof.
  intros Hh Hcur He. destruct db as [pr c]; cbn in Hh; subst c. split.
  - intros d2 d3 d4 d5 Hex Hcommit Hclose Hrb.
    rewrite execute_non_query_run. cbn zeta.
    unfold answered, committed_and_closed, answered, handled, after, ok.
    cbn [fst snd driver].
    rewrite Hcur. cbn [fst snd returned trace environ driver]. rewrite Hex.
    cbn [fst snd returned trace environ driver]. rewrite Hcommit.
    cbn [fst snd returned trace environ driver]. rewrite Hclose.
    cbn [fst snd returned trace environ driver]. rewrite He, Hrb.
    cbn [returned]. by rewrite <- !app_assoc.
  - intros d2 d3 d4 d5 Hex Hcommit Hclose Hrb.
    rewrite execute_script_run. cbn zeta.
    unfold answered, committed_and_closed, answered, handled, after, ok.
    cbn [fst snd driver].
    rewrite Hcur. cbn [fst snd returned trace environ driver].
    rewrite Hex, (execute_all_returns _ _ _ _ Hex).
    cbn [fst snd returned trace environ driver]. rewrite Hcommit.
    cbn [fst snd returned trace environ driver]. rewrite Hclose.
    cbn [fst snd returned trace environ driver]. rewrite He, Hrb.
    cbn [returned]. unfold ok. do 3 f_equal.
    rewrite <- !app_assoc. reflexivity.
Qed.

Lemma Database_init_config w z :
  builtin_int (port_text w) = Some z →
  Database_init w = (inr (mkDatabase (config_of w z) None), record_event EvDatabase w).
Proof.
  intros Hz. rewrite Database_init_run. cbn zeta.
  unfold port_text in Hz. by rewrite Hz.
Qed.

(** The tool once the query is accepted, the port is read and the driver
    has connected: what is left is [query_run]. *)
Lemma forward_connected (q : string) w z h d0 :
  builtin_int (port_text w) = Some z →
  pymysql_connect (config_of w z) (driver w) = (inr h, d0) →
  let db := mkDatabase (config_of w z) (Some h) in
  forward q w =
    match query_run q None db h
            (after w [EvDatabase; EvExecuteQuery q None;
                      ok (CallConnect (config_of w z))] d0) with
    | (inr rows, (db', w')) => (inr (rows, db'), w')
    | (inl e, (_, w')) => (inl e, w')
    end.
Proof.
  intros Hz Hconnect db. unfold forward. unfold_monad.
  rewrite (Database_init_config _ _ Hz).
  assert (connect_if_needed
            (mkDatabase (config_of w z) None,
             record_event (EvExecuteQuery q None) (record_event EvDatabase w))
          = (inr tt, (db, after w [EvDatabase; EvExecuteQuery q None;
                                   ok (CallConnect (config_of w z))] d0))) as Hcn.
  { rewrite connect_if_needed_fresh by done. cbn zeta.
    cbn [connection_params driver record_event]. rewrite Hconnect.
    unfold after, ok. cbn [trace environ record_event returned].
    by rewrite <- !app_assoc. }
  by rewrite (execute_query_run q None _ _ _ _ h Hcn eq_refl).
Qed.

(** X6: end to end, for an accepted query, a port that [int] reads, and a
    driver that connects, opens the cursor, executes, fetches and closes
    the cursor: the outcome is the success dictionary with the rows that
    [fetchall] gave, the query reached the driver as it was received, and
    the connection is left open (nothing closes it). *)
Theorem accepted_query_end_to_end
    (sql_query : string) w z h cur rows d0 d1 d2 d3 d4 :
  is_select sql_query = true →
  builtin_int (port_text w) = Some z →
  pymysql_connect (config_of w z) (driver w) = (inr h, d0) →
  Connection_cursor h DictCursor d0 = (inr cur, d1) →
  Cursor_execute cur sql_query None d1 = (inr tt, d2) →
  Cursor_fetchall cur d2 = (inr rows, d3) →
  Cursor_close cur d3 = (inr tt, d4) →
  execute_sql_function sql_query w =
    (inr (succeeded rows sql_query),
     after w [EvPrint (OutExecuting sql_query);
              EvDatabase;
              EvExecuteQuery sql_query None;
              ok (CallConnect (config_of w z));
              ok (CallCursor h DictCursor);
              ok (CallExecute cur sql_query None);
              ok (CallFetchall cur);
              ok (CallCursorClose cur);
              EvPrint (OutExecuted (List.length rows));
              EvPrint (OutResults rows)] d4).
Proof.
  intros Hq Hz Hconnect Hcur Hex Hfetch Hclose.
  rewrite execute_sql_function_run, Hq.
  rewrite (forward_connected sql_query (announced sql_query w) z h d0 Hz Hconnect).
  cbn zeta.
  unfold query_run, answered, after, ok, reported, announced, execute_args,
    record_event, config_of.
  cbn [fst snd driver trace environ truthy_params].
  rewrite Hcur. cbn [fst snd returned driver trace environ]. rewrite Hex.
  cbn [fst snd returned driver trace environ]. rewrite Hfetch.
  cbn [fst snd returned driver trace environ]. rewrite Hclose.
  cbn [fst snd returned driver trace environ].
  do 2 f_equal. rewrite <- !app_assoc. reflexivity.
Qed.

(** X7: end to end, when the driver cannot connect or rejects the query
    with a [pymysql.Error]: the outcome is the error dictionary whose
    message is the driver's, after "Failed to connect to database: " or
    "Query execution failed: "; after a rejected query the cursor is not
    closed and the connection stays open. *)
Theorem driver_error_end_to_end (sql_query : string) w z e :
  is_select sql_query = true →
  builtin_int (port_text w) = Some z →
  is_Error e = true →
  let params := config_of w z in
  let started :=
    [EvPrint (OutExecuting sql_query); EvDatabase;
     EvExecuteQuery sql_query None] in
  (∀ d0,
     pymysql_connect params (driver w) = (inl e, d0) →
     execute_sql_function sql_query w =
       (inr (failed (Exc ConnectionError
                       ("Failed to connect to database: " ++ exc_str e))
               sql_query),
        after w (started ++ [EvDriver (CallConnect params) (Some e)]) d0))
  ∧ (∀ h cur d0 d1 d2,
       pymysql_connect params (driver w) = (inr h, d0) →
       Connection_cursor h DictCursor d0 = (inr cur, d1) →
       Cursor_execute cur sql_query None d1 = (inl e, d2) →
       execute_sql_function sql_query w =
         (inr (failed (Exc RuntimeError
                         ("Query execution failed: " ++ exc_str e))
                 sql_query),
          after w (started
                   ++ [ok (CallConnect params); ok (CallCursor h DictCursor);
                       EvDriver (CallExecute cur sql_query None) (Some e)]) d2)).
Proof.
  intros Hq Hz He params started. subst params started. split.
  - intros d0 Hconnect. rewrite execute_sql_function_run, Hq.
    unfold forward. unfold_monad.
    rewrite (Database_init_config (announced sql_query w) z Hz).
    unfold execute_query. cbv [mbind M_bind world log modify]. cbn [fst snd].
    rewrite connect_if_needed_fresh by done. cbn zeta.
    unfold announced, record_event, config_of in *.
    cbn [connection_params driver environ trace] in *. rewrite Hconnect.
    unfold surfaced. rewrite He. unfold after.
    cbn [trace environ returned].
    do 2 f_equal. by rewrite <- !app_assoc.
  - intros h cur d0 d1 d2 Hconnect Hcur Hex.
    rewrite execute_sql_function_run, Hq.
    rewrite (forward_connected sql_query (announced sql_query w) z h d0 Hz Hconnect).
    cbn zeta.
    unfold query_run, answered, after, ok, announced, execute_args, surfaced,
      record_event, config_of.
    cbn [fst snd driver trace environ truthy_params].
    rewrite Hcur. cbn [fst snd returned driver trace environ]. rewrite Hex.
    cbn [fst snd returned driver trace environ]. rewrite He.
    do 2 f_equal. by rewrite <- !app_assoc.
Qed.

(** X8: a port that [int] cannot read (MYSQL_PORT=33o6) makes every
    accepted query end in the error dictionary with the message of the
    [ValueError], before the driver is asked anything: the tool reports a
    configuration mistake as a failed query. *)
Theorem malformed_port_fails_every_query (sql_query : string) w :
  is_select sql_query = true →
  builtin_int (port_text w) = None →
  execute_sql_function sql_query w =
    (inr (failed (Exc ValueError
                    ("invalid literal for int() with base 10: "
                     ++ builtin_repr (port_text w)))
            sql_query),
     after w [EvPrint (OutExecuting sql_query); EvDatabase] (driver w)).
Proof.
  intros Hq Hz. rewrite execute_sql_function_run, Hq.
  unfold forward. unfold_monad. rewrite Database_init_run. cbn zeta.
  unfold port_text, announced, record_event in *. cbn [environ]. rewrite Hz.
  unfold after. cbn [trace environ driver].
  do 2 f_equal. by rewrite <- !app_assoc.
Qed.

(** X9: what [Database()] gives does not depend on MYSQL_SSL_DISABLED,
    which is read and then left unused; the instance it gives is not
    connected and has autocommit off, and constructing it asks the driver
    nothing. *)
Theorem ssl_flag_is_ignored (value : string) w :
  (Database_init (setenv "MYSQL_SSL_DISABLED" value w)).1 = (Database_init w).1
  ∧ driver (Database_init w).2 = driver w
  ∧ ∀ db, (Database_init w).1 = inr db →
          conn db = None ∧ autocommit (connection_params db) = false.
Proof.
  rewrite !Database_init_run. cbn zeta.
  unfold setenv. cbn [environ].
  rewrite !lookup_insert_ne by done.
  destruct (builtin_int _); cbn [fst snd]; (split_and!; [done..|]).
  - by intros db [= <-].
  - done.
Qed.

(** [connect] does not look at the connection the instance may
    already hold: when the driver connects, the new handle replaces the old
    one, which is not closed.  When the driver raises a [pymysql.Error] the
    instance is left as it was and [ConnectionError] carries the driver's
    message; any other exception passes through. *)
Lemma connect_outcomes db w :
  (∀ h d,
     pymysql_connect (connection_params db) (driver w) = (inr h, d) →
     connect (db, w) =
       (inr true,
        (mkDatabase (connection_params db) (Some h),
         after w [ok (CallConnect (connection_params db))] d)))
  ∧ (∀ e d,
       pymysql_connect (connection_params db) (driver w) = (inl e, d) →
       connect (db, w) =
         (inl (if is_Error e
               then Exc ConnectionError
                      ("Failed to connect to database: " ++ exc_str e)
               else e),
          (db, after w [EvDriver (CallConnect (connection_params db)) (Some e)] d))).
Proof.
  split.
  - intros h d Hc. unfold_methods. by rewrite Hc.
  - intros e d Hc. unfold_methods. rewrite Hc. by destruct (is_Error e).
Qed.

(** [with self: body], once [connect] has returned. *)
Lemma with_self_entered {A} (body : M Self A) db w s1 :
  connect (db, w) = (inr true, s1) →
  with_self body (db, w) = then_exit body s1.
Proof.
  intros Hc. unfold with_self, __enter__. cbv [mbind M_bind mret M_ret].
  by rewrite Hc.
Qed.

(** X15: [with] on a [Database]: when [connect] raises, the body does not
    run and nothing is closed; otherwise the connection the instance holds
    when the body ends is closed and the instance left unconnected,
    whether the body returned or raised, and what the body returned or
    raised is what the block gives; when closing raises, that exception is
    what the block raises. *)
Theorem with_block_releases_the_connection {A} (body : M Self A) db w :
  (∀ e s1, connect (db, w) = (inl e, s1) → with_self body (db, w) = (inl e, s1))
  ∧ (∀ s1 r db2 w2 h d,
       connect (db, w) = (inr true, s1) →
       body s1 = (r, (db2, w2)) →
       conn db2 = Some h →
       Connection_close h (driver w2) = (inr tt, d) →
       with_self body (db, w) =
         (r, (mkDatabase (connection_params db2) None,
              after w2 [ok (CallClose h)] d)))
  ∧ (∀ s1 r db2 w2 h e d,
       connect (db, w) = (inr true, s1) →
       body s1 = (r, (db2, w2)) →
       conn db2 = Some h →
       Connection_close h (driver w2) = (inl e, d) →
       with_self body (db, w) =
         (inl e, (db2, after w2 [EvDriver (CallClose h) (Some e)] d))).
Proof.
  split_and!.
  - intros e s1 Hc. unfold with_self, __enter__. cbv [mbind M_bind].
    by rewrite Hc.
  - intros s1 r db2 w2 h d Hc Hbody Hh Hclose.
    rewrite (with_self_entered _ _ _ _ Hc). unfold then_exit, __exit__.
    rewrite Hbody. cbv [mbind M_bind mret M_ret raise].
    rewrite disconnect_run, Hh, Hclose. by destruct r.
  - intros s1 r db2 w2 h e d Hc Hbody Hh Hclose.
    rewrite (with_self_entered _ _ _ _ Hc). unfold then_exit, __exit__.
    rewrite Hbody. cbv [mbind M_bind mret M_ret raise].
    rewrite disconnect_run, Hh, Hclose. by destruct r.
Qed.


Lemma connects_app (a b : list event) : connects (a ++ b) = connects a + connects b.
Proof.
  induction a as [|ev a IH]; [done|]. cbn.
  destruct ev as [| | |[] ?]; cbn; by rewrite IH.
Qed.

Lemma connects_kept (evs : list event) : Forall kept evs → connects evs = 0.
Proof.
  induction 1 as [|ev evs Hev _ IH]; [done|].
  destruct ev as [| | |[] ?]; cbn in *; done.
Qed.

(** One run of [execute_query]: the driver is asked to connect once on an
    instance that is not connected, never on one that is; and the instance
    is connected after every run that returned. *)
Lemma execute_query_connects (q : string) p db w :
  let out := execute_query q p (db, w) in
  ∃ new,
    trace out.2.2 = trace w ++ new
    ∧ connects new = match conn db with Some _ => 0 | None => 1 end
    ∧ (∀ rows, out.1 = inr rows → is_Some (conn out.2.1)).
Proof.
  intros out. subst out.
  destruct (connect_if_needed (db, record_event (EvExecuteQuery q p) w))
    as [[e|[]] [db1 w1]] eqn:Hcn.
  - assert (execute_query q p (db, w) = (inl e, (db1, w1))) as ->.
    { unfold execute_query. cbv [mbind M_bind world log modify]. cbn [fst snd].
      by rewrite Hcn. }
    destruct (conn db) as [h|] eqn:Hc.
    { by rewrite (connect_if_needed_connected _ _ h Hc) in Hcn. }
    rewrite connect_if_needed_fresh in Hcn by done. cbn zeta in Hcn.
    destruct (pymysql_connect _ _) as [[e0|h] d]; [|done].
    injection Hcn as _ _ <-. eexists. cbn [fst snd trace record_event].
    rewrite <- app_assoc. split_and!; [done|done|done].
  - destruct (connect_if_needed_returns _ _ _ _ Hcn) as ([h Hh] & _).
    rewrite (execute_query_run q p db w db1 w1 h Hcn Hh).
    destruct (query_run q p db1 h w1) as [r [db' w']] eqn:Hrun.
    apply query_run_kept in Hrun as [-> (new2 & Hnew2 & Hkept)].
    apply connects_kept in Hkept. cbn [fst snd].
    assert (∃ new1, trace w1 = trace w ++ new1
                    ∧ connects new1 = match conn db with Some _ => 0 | None => 1 end)
      as (new1 & Hnew1 & Hcount).
    { destruct (conn db) as [h0|] eqn:Hc.
      - rewrite (connect_if_needed_connected _ _ h0 Hc) in Hcn.
        injection Hcn as _ <-. by eexists.
      - rewrite connect_if_needed_fresh in Hcn by done. cbn zeta in Hcn.
        destruct (pymysql_connect _ _) as [[e0|h0] d]; [done|].
        injection Hcn as _ <-. eexists. cbn [trace record_event].
        by rewrite <- app_assoc. }
    exists (new1 ++ new2). split_and!.
    + by rewrite Hnew2, Hnew1, app_assoc.
    + rewrite connects_app, Hkept, Hcount. lia.
    + by rewrite Hh.
Qed.

(** X11: two queries in a row on one instance ask the driver to connect
    once if the instance was not connected and never if it was: the second
    query reuses the connection the first one opened. *)
Theorem two_queries_connect_once (q1 q2 : string) (p1 p2 : option Row) db w :
  let out := (execute_query q1 p1;; execute_query q2 p2) (db, w) in
  ∃ new,
    trace out.2.2 = trace w ++ new
    ∧ connects new = match conn db with Some _ => 0 | None => 1 end.
Proof.
  intros out. subst out. cbv [mbind M_bind].
  destruct (execute_query_connects q1 p1 db w) as (new1 & Hnew1 & Hcount1 & Hconn).
  cbn zeta in *.
  destruct (execute_query q1 p1 (db, w)) as [[e|rows] [db1 w1]]; cbn [fst snd] in *.
  { by exists new1. }
  destruct (Hconn rows eq_refl) as [h Hh].
  destruct (execute_query_connects q2 p2 db1 w1) as (new2 & Hnew2 & Hcount2 & _).
  cbn zeta in *. rewrite Hh in Hcount2.
  exists (new1 ++ new2). split.
  - by rewrite Hnew2, Hnew1, app_assoc.
  - rewrite connects_app, Hcount1, Hcount2. lia.
Qed.

End MoreProperties.

(** ** The further properties at concrete inputs *)

Local Open Scope list_scope.

Lemma statements_witness :
  In "b')" (statements_of "INSERT INTO t VALUES ('a;b') ; ")
  ∧ contains ";" "b')" = false
  ∧ ∃ a b, first_char "b')" = Some a ∧ PyStr.isspace a = false
           ∧ last_char "b')" = Some b ∧ PyStr.isspace b = false.
Proof.
  assert (In "b')" (statements_of "INSERT INTO t VALUES ('a;b') ; ")) as Hin.
  { vm_compute. auto. }
  split; [exact Hin|].
  exact (statements_are_stripped_and_semicolon_free _ _ Hin).
Defined.

Lemma is_select_padding_witness :
  PyStr.blank "  " ∧ PyStr.blank " "
  ∧ is_select (PyStr.upper "Select 1") = is_select "Select 1"
  ∧ is_select (PyStr.lower "Select 1") = is_select "Select 1"
  ∧ is_select ("  " ++ "Select 1" ++ " ")%string = is_select "Select 1".
Proof.
  assert (PyStr.blank "  ") as Hb by by vm_compute.
  assert (PyStr.blank " ") as Ha by by vm_compute.
  split; [exact Hb|]. split; [exact Ha|].
  exact (is_select_ignores_case_and_padding "Select 1" "  " " " Hb Ha).
Defined.

Lemma stays_connected_witness :
  conn Ref.connected = Some 0
  ∧ (execute_query "SELECT 1" None (Ref.connected, Ref.initial Ref.server)).2.1
    = Ref.connected
  ∧ (execute_non_query "DROP TABLE t" None
       (Ref.connected, Ref.initial Ref.server)).2.1 = Ref.connected
  ∧ (execute_script "INSERT INTO t VALUES (1); DROP t"
       (Ref.connected, Ref.initial Ref.server)).2.1 = Ref.connected.
Proof.
  split; [reflexivity|].
  destruct (connected_instance_stays_connected
              "SELECT 1" "INSERT INTO t VALUES (1); DROP t" None
              Ref.connected (Ref.initial Ref.server) 0 eq_refl)
    as (Hq & _ & Hs).
  destruct (connected_instance_stays_connected
              "DROP TABLE t" "" None
              Ref.connected (Ref.initial Ref.server) 0 eq_refl)
    as (_ & Hn & _).
  split_and!.
  - destruct (execute_query _ _ _) as [r [db' w']] eqn:Hrun.
    exact (proj1 (Hq _ _ _ eq_refl)).
  - destruct (execute_non_query _ _ _) as [r [db' w']] eqn:Hrun.
    exact (proj1 (Hn _ _ _ eq_refl)).
  - destruct (execute_script _ _) as [r [db' w']] eqn:Hrun.
    exact (proj1 (Hs _ _ _ eq_refl)).
Defined.

Lemma other_exceptions_witness :
  conn Ref.connected = Some 0
  ∧ is_Error (Exc ValueError "incomplete format") = false
  ∧ execute_non_query "UPDATE t SET a = 50%" None
      (Ref.connected, Faulty.initial Faulty.formatting)
    = (inl (Exc ValueError "incomplete format"),
       (Ref.connected,
        mkWorld ∅ [ok (CallCursor 0 DefaultCursor);
                   EvDriver (CallExecute 0 "UPDATE t SET a = 50%" None)
                     (Some (Exc ValueError "incomplete format"))]
          Faulty.formatting))
  ∧ (execute_script "UPDATE t SET a = 50%; DELETE FROM t"
       (Ref.connected, Faulty.initial Faulty.formatting)).1
    = inl (Exc ValueError "incomplete format").
Proof.
  split; [reflexivity|]. split; [reflexivity|].
  edestruct (other_exceptions_skip_the_rollback
              "UPDATE t SET a = 50%" "UPDATE t SET a = 50%; DELETE FROM t" None
              Ref.connected (Faulty.initial Faulty.formatting) 0 0
              Faulty.formatting (Exc ValueError "incomplete format"))
    as [Hn Hs]; [reflexivity..|].
  split.
  - apply Hn. reflexivity.
  - edestruct Hs as (? & ? & ? & _ & ->); reflexivity.
Defined.

Lemma failed_rollback_witness :
  conn Ref.connected = Some 0
  ∧ is_Error (Exc PyMySQLError "(2006, MySQL server has gone away)") = true
  ∧ (execute_non_query "DELETE FROM t" None
       (Ref.connected, Faulty.initial Faulty.gone)).1
    = inl (Exc PyMySQLError "(0, )")
  ∧ (execute_script "DELETE FROM t; DELETE FROM u"
       (Ref.connected, Faulty.initial Faulty.gone)).1
    = inl (Exc PyMySQLError "(0, )").
Proof.
  split; [reflexivity|]. split; [reflexivity|].
  edestruct (failed_rollback_replaces_the_error
              "DELETE FROM t" "DELETE FROM t; DELETE FROM u" None
              Ref.connected (Faulty.initial Faulty.gone) 0 0 Faulty.gone
              (Exc PyMySQLError "(2006, MySQL server has gone away)")
              (Exc PyMySQLError "(0, )"))
    as [Hn Hs]; [reflexivity..|].
  split.
  - erewrite Hn; reflexivity.
  - edestruct Hs as (? & ? & ? & _ & ->); reflexivity.
Defined.

Lemma error_after_commit_witness :
  conn Ref.connected = Some 0
  ∧ is_Error (Exc PyMySQLError "(2014, Commands out of sync)") = true
  ∧ (execute_non_query "DELETE FROM t" None
       (Ref.connected, Faulty.initial Faulty.unread)).1
    = inl (Exc RuntimeError
             "Query execution failed: (2014, Commands out of sync)")
  ∧ Ref.committed
      (Faulty.base
         (driver (execute_non_query "DELETE FROM t" None
                    (Ref.connected, Faulty.initial Faulty.unread)).2.2))
    = ["DELETE FROM t"]
  ∧ (execute_script "DELETE FROM t; DELETE FROM u"
       (Ref.connected, Faulty.initial Faulty.unread)).1
    = inl (Exc RuntimeError
             "Script execution failed: (2014, Commands out of sync)").
Proof.
  split; [reflexivity|]. split; [reflexivity|].
  edestruct (error_after_commit_still_raises
              "DELETE FROM t" "DELETE FROM t; DELETE FROM u" None
              Ref.connected (Faulty.initial Faulty.unread) 0 0 Faulty.unread
              (Exc PyMySQLError "(2014, Commands out of sync)"))
    as [Hn Hs]; [reflexivity..|].
  erewrite Hn; [|reflexivity..]. erewrite Hs; [|reflexivity..].
  split_and!; reflexivity.
Defined.

Lemma accepted_query_witness :
  is_select "select * from departments limit 1" = true
  ∧ builtin_int (port_text (Ref.initial Ref.server)) = Some 3306%Z
  ∧ (execute_sql_function "select * from departments limit 1"
       (Ref.initial Ref.server)).1
    = inr (succeeded Ref.departments "select * from departments limit 1")
  ∧ trace (execute_sql_function "select * from departments limit 1"
             (Ref.initial Ref.server)).2
    = [EvPrint (OutExecuting "select * from departments limit 1");
       EvDatabase;
       EvExecuteQuery "select * from departments limit 1" None;
       ok (CallConnect Ref.params);
       ok (CallCursor 0 DictCursor);
       ok (CallExecute 0 "select * from departments limit 1" None);
       ok (CallFetchall 0);
       ok (CallCursorClose 0);
       EvPrint (OutExecuted 1);
       EvPrint (OutResults Ref.departments)].
Proof.
  split; [reflexivity|]. split; [reflexivity|].
  erewrite (accepted_query_end_to_end
              "select * from departments limit 1" (Ref.initial Ref.server)
              3306 0 0 Ref.departments);
    [|reflexivity..].
  split; reflexivity.
Defined.

Lemma driver_error_witness :
  is_select "SELECT 1" = true
  ∧ builtin_int (port_text (Ref.initial Ref.unreachable)) = Some 3306%Z
  ∧ (execute_sql_function "SELECT 1" (Ref.initial Ref.unreachable)).1
    = inr (failed (Exc ConnectionError
                     "Failed to connect to database: (2003, Cannot connect to MySQL server)")
             "SELECT 1")
  ∧ (execute_sql_function "SELECT 1" (Ref.initial Ref.server)).1
    = inr (failed (Exc RuntimeError
                     "Query execution failed: (1146, Table does not exist)")
             "SELECT 1").
Proof.
  split; [reflexivity|]. split; [reflexivity|].
  edestruct (driver_error_end_to_end "SELECT 1" (Ref.initial Ref.unreachable) 3306
              (Ref.error "(2003, Cannot connect to MySQL server)"))
    as [Hc _]; [reflexivity..|].
  edestruct (driver_error_end_to_end "SELECT 1" (Ref.initial Ref.server) 3306
              (Ref.error "(1146, Table does not exist)"))
    as [_ Hq]; [reflexivity..|].
  erewrite Hc; [|reflexivity]. erewrite (Hq 0 0); [|reflexivity..].
  split; reflexivity.
Defined.

Lemma malformed_port_witness :
  is_select "SELECT 1" = true
  ∧ builtin_int
      (port_text (mkWorld {[ "MYSQL_PORT" := "33o6" ]} [] Ref.server)) = None
  ∧ execute_sql_function "SELECT 1"
      (mkWorld {[ "MYSQL_PORT" := "33o6" ]} [] Ref.server)
    = (inr (failed (Exc ValueError
                      "invalid literal for int() with base 10: '33o6'")
              "SELECT 1"),
       mkWorld {[ "MYSQL_PORT" := "33o6" ]}
         [EvPrint (OutExecuting "SELECT 1"); EvDatabase] Ref.server).
Proof.
  split; [reflexivity|]. split; [by vm_compute|].
  rewrite (malformed_port_fails_every_query "SELECT 1"
             (mkWorld {[ "MYSQL_PORT" := "33o6" ]} [] Ref.server) eq_refl);
    [|by vm_compute].
  vm_compute. reflexivity.
Defined.


Lemma with_block_witness :
  with_self (execute_query "SELECT 1" None) (Ref.fresh, Ref.initial Ref.server)
  = (inl (Exc RuntimeError "Query execution failed: (1146, Table does not exist)"),
     (Ref.fresh,
      mkWorld ∅ [ok (CallConnect Ref.params);
                 EvExecuteQuery "SELECT 1" None;
                 ok (CallCursor 0 DictCursor);
                 EvDriver (CallExecute 0 "SELECT 1" None)
                   (Some (Ref.error "(1146, Table does not exist)"));
                 ok (CallClose 0)] Ref.server)).
Proof.
  eapply eq_trans.
  - eapply (proj1 (proj2 (with_block_releases_the_connection
                            (execute_query "SELECT 1" None)
                            Ref.fresh (Ref.initial Ref.server))));
      [reflexivity | vm_compute; reflexivity | reflexivity | reflexivity].
  - reflexivity.
Defined.
